(** * The SEMCL.ONE download dashboard: the aggregations of [dashboard.js]

    A shallow embedding of the browser script that turns the statistics
    snapshot ([data/stats.json]) into summary cards and three charts, and the
    properties of its four aggregations (recent window, daily time series,
    interpreter versions, operating systems), of [formatNumber] and of the
    error path of [loadStats].

    The repository holds two copies of the script.  They share
    [formatNumber] and the three chart functions word for word and differ in
    the palette [COLORS], which is a section variable here; the summary
    cards and [loadStats] follow the copy that shows the organic counts,
    and those of the other copy, with its package-details section, are in
    [Docs].

    Conventions of the embedding.
    - The snapshot is a record with optional members: a facet and its [data]
      member may be missing, a [category] may be missing, [null] or any
      string, a number may be missing.  On such a snapshot no render
      function throws.
    - What [response.json()] gives is a [Body], which need not be a
      snapshot: [packages] may be missing, and the [data] of a facet may
      hold something that is no array.  A render call throws on these, and
      the [catch] block of [loadStats] then runs on the page as the calls
      before it left it.
    - Download counts are the integers that the document holds, each of
      them a double.  A total is what the additions of the script give in
      double arithmetic ([Js.add]: the nearest double, ties to even, an
      infinity beyond the largest double), which is the sum of the integers
      while the magnitudes stay below 2^53.
    - A JSON object that the script enumerates is a list of own properties in
      insertion order ([Js.obj]); [Js.Object_entries] applies the property
      order of the language (array indices first, ascending, then the other
      keys in insertion order).
    - The totals object of a categorical chart is an object literal.  Under
      a category that names a property of [Object.prototype] the first read
      gives the inherited value ([Js.Object_prototype]): a method makes the
      total a text, and [__proto__] never becomes an own property.
    - Locale-dependent host functions ([toLocaleString], [localeCompare],
      the date formatter) and the message of a [TypeError] are section
      variables. *)

From Stdlib Require Import ZArith NArith List String Ascii Bool Lia.
From Stdlib Require Import Permutation Sorted DecimalString.
From Stdlib Require DecimalPos DecimalZ.
Import ListNotations.

Local Open Scope string_scope.
Local Open Scope Z_scope.

(* ================================================================== *)
(** * Host-language primitives *)
(* ================================================================== *)

Module Js.

Section ArraySort.
Context {A : Type}.
Variable comparefn : A -> A -> Z.

(** [x] comes from the left of everything in [l]: it stays in front of
    the first element it does not have to follow. *)
Fixpoint sort_insert (x : A) (l : list A) : list A :=
  match l with
  | [] => [x]
  | y :: l' =>
      if comparefn x y <=? 0 then x :: y :: l' else y :: sort_insert x l'
  end.

(** [Array.prototype.sort(comparefn)]: the language requires a stable
    sort; for a consistent comparator that fixes the result, computed
    here by insertion.  For a comparator that is not consistent the
    language leaves the order to the implementation: the statements about
    order below are made where the comparator is consistent. *)
Definition Array_sort (l : list A) : list A := fold_right sort_insert [] l.
End ArraySort.

(** [array.slice(0, n)] *)
Definition Array_slice0 {A : Type} (n : nat) (l : list A) : list A := firstn n l.

(** Own enumerable string-keyed properties, in insertion order. *)
Definition obj (V : Type) : Type := list (string * V).

(** [o[k]]; [None] is [undefined]. *)
Fixpoint get {V : Type} (o : obj V) (k : string) : option V :=
  match o with
  | [] => None
  | (k', v) :: o' => if (k =? k')%string then Some v else get o' k
  end.

(** [o[k] = v]: an existing property keeps its place, a new one goes last. *)
Fixpoint set {V : Type} (o : obj V) (k : string) (v : V) : obj V :=
  match o with
  | [] => [(k, v)]
  | (k', v') :: o' =>
      if (k =? k')%string then (k, v) :: o' else (k', v') :: set o' k v
  end.

Definition digit (c : ascii) : option N :=
  let n := N_of_ascii c in
  if ((48 <=? n) && (n <=? 57))%N then Some (n - 48)%N else None.

Fixpoint digits (s : string) (acc : N) : option N :=
  match s with
  | EmptyString => Some acc
  | String c s' =>
      match digit c with
      | Some d => digits s' (10 * acc + d)%N
      | None => None
      end
  end.

(** A property key is an array index when it is the canonical decimal
    numeral of an integer below 2^32 - 1. *)
Definition array_index (k : string) : option N :=
  match k with
  | EmptyString => None
  | String c rest =>
      if ((c =? "0")%char && negb (rest =? "")%string)%bool then None
      else match digits k 0%N with
           | Some n => if (n <? 2 ^ 32 - 1)%N then Some n else None
           | None => None
           end
  end.

Definition is_index {V : Type} (p : string * V) : bool :=
  match array_index (fst p) with Some _ => true | None => false end.

Definition index_value {V : Type} (p : string * V) : Z :=
  match array_index (fst p) with Some n => Z.of_N n | None => 0 end.

(** [Object.entries(o)]: array-index keys in ascending numeric order, then
    the remaining keys in insertion order. *)
Definition Object_entries {V : Type} (o : obj V) : list (string * V) :=
  (Array_sort (fun a b => index_value a - index_value b) (filter is_index o)
   ++ filter (fun p => negb (is_index p)) o)%list.

(** [Object.values(o)] *)
Definition Object_values {V : Type} (o : obj V) : list V :=
  map snd (Object_entries o).

(** [set.add(x)] on a [Set] of strings (insertion-ordered, no repeats). *)
Definition Set_add (s : list string) (x : string) : list string :=
  if existsb (String.eqb x) s then s else (s ++ [x])%list.

(** [entries.forEach((e, index) => ...)] threading the captured state. *)
Fixpoint forEach_from {S E : Type} (f : S -> E -> nat -> S)
    (index : nat) (l : list E) (s : S) : S :=
  match l with
  | [] => s
  | e :: l' => forEach_from f (Datatypes.S index) l' (f s e index)
  end.

Definition forEach {S E : Type} (f : S -> E -> nat -> S) (l : list E) (s : S) : S :=
  forEach_from f 0%nat l s.

(** [value || dflt] for an optional number: [undefined] and [0] are falsy. *)
Definition num_or (value : option Z) (dflt : Z) : Z :=
  match value with
  | Some n => if n =? 0 then dflt else n
  | None => dflt
  end.

(** ** Numbers and the values of a totals object

    The numbers of the snapshot are held as the integers they denote; a sum
    is held as the integer that the double arithmetic of the language gives,
    or as an infinity. *)

(** The nearest integer that a double holds: 53 significant bits, a tie
    going to the even significand. *)
Definition round53 (z : Z) : Z :=
  let a := Z.abs z in
  if a <? 2 ^ 53 then z
  else
    let e := Z.log2 a - 52 in
    let q := a / 2 ^ e in
    let r := a mod 2 ^ e in
    let half := 2 ^ (e - 1) in
    let q' := if ((half <? r) || ((r =? half) && Z.odd q))%bool then q + 1 else q in
    Z.sgn z * (q' * 2 ^ e).

Inductive number : Type :=
  | Finite (z : Z)
  | PosInfinity
  | NegInfinity.

(** A rounded result beyond the largest double is an infinity. *)
Definition overflow (z : Z) : number :=
  if 2 ^ 1024 <=? z then PosInfinity
  else if z <=? - 2 ^ 1024 then NegInfinity
  else Finite z.

(** [a + d] for a number [a] and a finite count [d]. *)
Definition add (a : number) (d : Z) : number :=
  match a with
  | Finite z => overflow (round53 (z + d))
  | PosInfinity => PosInfinity
  | NegInfinity => NegInfinity
  end.

(** What a property of a totals object holds: a number, or the text that
    [+] makes of an inherited function and the counts added to it (the
    source text of [Object.prototype[inherited]] followed by the decimal
    texts of [appended]). *)
Inductive value : Type :=
  | Number (n : number)
  | Text (inherited : string) (appended : list Z).

(** The properties that an object literal inherits from
    [Object.prototype]: methods, which an assignment shadows with an own
    property, and the accessor [__proto__], whose setter ignores a value
    that is neither an object nor [null]. *)
Inductive inherited_property : Type :=
  | Method
  | Accessor.

Definition Object_prototype (k : string) : option inherited_property :=
  if (k =? "__proto__")%string then Some Accessor
  else if existsb (String.eqb k)
            [ "constructor"; "hasOwnProperty"; "isPrototypeOf";
              "propertyIsEnumerable"; "toLocaleString"; "toString"; "valueOf";
              "__defineGetter__"; "__defineSetter__";
              "__lookupGetter__"; "__lookupSetter__" ]
  then Some Method
  else None.

(** [(current || 0) + d] for the own value [current]: a number adds (zero
    is falsy and reads as 0 all the same), a text is truthy and has the
    count appended. *)
Definition or0_plus (current : value) (d : Z) : value :=
  match current with
  | Number n => Number (add n d)
  | Text name appended => Text name (appended ++ [d])%list
  end.

(** ToNumber; [None] is NaN, which the text of a function is. *)
Definition ToNumber (v : value) : option number :=
  match v with
  | Number n => Some n
  | Text _ _ => None
  end.

(** The sign of [b - a], and 0 where the difference is NaN: that is how
    [sort] reads the result of its comparator. *)
Definition minus_sign (b a : value) : Z :=
  match ToNumber b, ToNumber a with
  | Some (Finite y), Some (Finite x) => Z.sgn (y - x)
  | Some PosInfinity, Some PosInfinity => 0
  | Some NegInfinity, Some NegInfinity => 0
  | Some PosInfinity, Some _ => 1
  | Some _, Some NegInfinity => 1
  | Some NegInfinity, Some _ => -1
  | Some _, Some PosInfinity => -1
  | _, _ => 0
  end.

End Js.

(* ================================================================== *)
(** * Data model: the snapshot document *)
(* ================================================================== *)

(** The JSON value of a [category] field: missing, [null], or a string. *)
Inductive category_value : Type :=
  | CategoryAbsent
  | CategoryNull
  | CategoryStr (s : string).

(** ToBoolean: only a non-empty string is truthy. *)
Definition truthy (c : category_value) : bool :=
  match c with
  | CategoryStr s => negb (s =? "")%string
  | _ => false
  end.

(** [c === lit] and [c !== lit] against a string literal. *)
Definition strict_eq (c : category_value) (lit : string) : bool :=
  match c with
  | CategoryStr s => (s =? lit)%string
  | _ => false
  end.

Definition strict_neq (c : category_value) (lit : string) : bool :=
  negb (strict_eq c lit).

(** ToPropertyKey, for [totals[item.category]]. *)
Definition propertyKey (c : category_value) : string :=
  match c with
  | CategoryAbsent => "undefined"
  | CategoryNull => "null"
  | CategoryStr s => s
  end.

(** One element of [overall.data]. *)
Module DailyPoint.
Record t : Type := mk
  { date : string; downloads : option Z; category : category_value }.
End DailyPoint.

(** One element of [python_versions.data] or [system.data]. *)
Module CategoryCount.
Record t : Type := mk
  { category : category_value; downloads : option Z }.
End CategoryCount.

(** The object under [recent.data]. *)
Record RecentData : Type := mkRecentData
  { last_day : option Z;
    last_week : option Z;
    last_month : option Z;
    last_day_without_mirrors : option Z;
    last_week_without_mirrors : option Z;
    last_month_without_mirrors : option Z }.

(** The literal [{}]. *)
Definition emptyRecent : RecentData :=
  mkRecentData None None None None None None.

(** Every facet sits in an envelope with an optional [data] member. *)
Record Envelope (T : Type) : Type := mkEnvelope { data : option T }.
Arguments mkEnvelope {T} _.
Arguments data {T} _.

Record PackageStats : Type := mkPackageStats
  { recent : option (Envelope RecentData);
    overall : option (Envelope (list DailyPoint.t));
    python_versions : option (Envelope (list CategoryCount.t));
    system : option (Envelope (list CategoryCount.t)) }.

Record Snapshot : Type := mkSnapshot
  { last_updated : string;
    packages : Js.obj PackageStats }.

(** [facet?.data || dflt], for a facet whose data is an array or an object
    (both truthy even when empty). *)
Definition data_or {T : Type} (facet : option (Envelope T)) (dflt : T) : T :=
  match facet with
  | Some envelope =>
      match data envelope with
      | Some d => d
      | None => dflt
      end
  | None => dflt
  end.

(** ** The parsed body

    [response.json()] gives what the document holds, which need not have
    the shape of a snapshot: the [packages] member may be missing, and a
    [data] member that should be an array may hold something else.  The
    elements of an array are objects of the right shape, as in a snapshot:
    of the documents that make a render call throw, these two kinds are
    modelled. *)

(** A [data] member read as an array: an array, or another truthy value
    (a number, a string, an object), which has no [filter] and no
    [forEach].  A falsy value reads as a missing member. *)
Inductive ArrayOr (T : Type) : Type :=
  | IsArray (items : list T)
  | NotArray.
Arguments IsArray {T} _.
Arguments NotArray {T}.

Record ParsedPackage : Type := mkParsedPackage
  { parsed_recent : option (Envelope RecentData);
    parsed_overall : option (Envelope (ArrayOr DailyPoint.t));
    parsed_python_versions : option (Envelope (ArrayOr CategoryCount.t));
    parsed_system : option (Envelope (ArrayOr CategoryCount.t)) }.

Record Body : Type := mkBody
  { body_last_updated : string;
    body_packages : option (Js.obj ParsedPackage) }.

(** The facet holds a value that is not an array. *)
Definition notArray {T : Type} (facet : option (Envelope (ArrayOr T))) : bool :=
  match facet with
  | Some envelope =>
      match data envelope with
      | Some NotArray => true
      | _ => false
      end
  | None => false
  end.

(** The facet as the code reads it when it does hold an array. *)
Definition arrayFacet {T : Type} (facet : option (Envelope (ArrayOr T))) :
    option (Envelope (list T)) :=
  option_map
    (fun envelope =>
       mkEnvelope
         (match data envelope with
          | Some (IsArray items) => Some items
          | _ => None
          end))
    facet.

Definition shapedPackage (pkgData : ParsedPackage) : PackageStats :=
  mkPackageStats (parsed_recent pkgData)
    (arrayFacet (parsed_overall pkgData))
    (arrayFacet (parsed_python_versions pkgData))
    (arrayFacet (parsed_system pkgData)).

Definition shapedPackages (packages : Js.obj ParsedPackage) : Js.obj PackageStats :=
  map (fun entry => (fst entry, shapedPackage (snd entry))) packages.

(** A snapshot as a parsed body. *)
Definition parsedFacet {T : Type} (facet : option (Envelope (list T))) :
    option (Envelope (ArrayOr T)) :=
  option_map (fun envelope => mkEnvelope (option_map IsArray (data envelope))) facet.

Definition parsedPackage (pkgData : PackageStats) : ParsedPackage :=
  mkParsedPackage (recent pkgData)
    (parsedFacet (overall pkgData))
    (parsedFacet (python_versions pkgData))
    (parsedFacet (system pkgData)).

Definition bodyOf (stats : Snapshot) : Body :=
  mkBody (last_updated stats)
    (Some (map (fun entry => (fst entry, parsedPackage (snd entry))) (packages stats))).

(** What a render call can throw. *)
Inductive Thrown : Type :=
  | NotAFunction (callee : string)     (* [callee(...)] where callee is undefined *)
  | NotAnObject.                       (* [Object.entries(undefined)] *)

(** The error objects that reach the [catch] block. *)
Inductive Exception : Type :=
  | HttpError (status : Z)             (* [new Error(`HTTP error! status: ...`)] *)
  | Rejected (message : string)        (* [fetch] or [response.json()] rejected *)
  | TypeError (thrown : Thrown).

(* ================================================================== *)
(** * What the page shows *)
(* ================================================================== *)

(** The six locals of one iteration of [renderSummaryCards]. *)
Record RecentWindow : Type := mkRecentWindow
  { lastDay : Z;
    lastWeek : Z;
    lastMonth : Z;
    lastDayWithout : Z;
    lastWeekWithout : Z;
    lastMonthWithout : Z }.

(** One [package-card] block: the package name and the six formatted
    numbers that the template interpolates. *)
Record Card : Type := mkCard
  { cardName : string;
    cardDay : string; cardDayOrganic : string;
    cardWeek : string; cardWeekOrganic : string;
    cardMonth : string; cardMonthOrganic : string }.

(** The content of the [summaryCards] container. *)
Inductive SummaryHtml : Type :=
  | StaticMarkup                      (* what the page ships with *)
  | Cards (cards : list Card)
  | ErrorParagraph (errorMsg : string).

Record Point : Type := mkPoint { x : string; y : Z }.

Module Dataset.
Record t : Type := mk
  { label : string;
    data : list Point;
    borderColor : option string;
    backgroundColor : string }.
End Dataset.

(** The [data] member of the configuration handed to [new Chart]. *)
Inductive ChartData : Type :=
  | Line (datasets : list Dataset.t)
  | Bar (labels : list string) (values : list Js.value)
  | Doughnut (labels : list string) (values : list Js.value).

(** The page: the global [statsData], the two text containers, the charts
    created so far (by canvas id) and the console, each line of which is
    the arguments of one [console.error]. *)
Record Page : Type := mkPage
  { statsData : option Body;
    lastUpdated : string;
    summaryCards : SummaryHtml;
    charts : list (string * ChartData);
    console : list (string * Exception) }.

(** What [fetch] and [response.json()] can do: reject, or answer with a
    status and a body that parses or not. *)
Inductive FetchOutcome : Type :=
  | FetchRejected (message : string)
  | FetchResponse (ok : bool) (status : Z) (json : string + Body).

(** The script exists in two copies that differ in the palette (and in
    what the cards show); these are the two values of [COLORS]. *)
Definition COLORS_theme : list string :=
  [ "#9B0002"; "#C50003"; "#7A0001"; "#E60004";
    "#B85C00"; "#D47300"; "#8B4500"; "#FF8C00";
    "#0A6E0A"; "#0D8F0D"; "#085808"; "#10B010";
    "#666666"; "#808080"; "#4D4D4D"; "#999999" ].

Definition COLORS_docs : list string :=
  [ "#2563eb"; "#3b82f6"; "#60a5fa"; "#93c5fd";
    "#10b981"; "#34d399"; "#6ee7b7"; "#a7f3d0";
    "#f59e0b"; "#fbbf24"; "#fcd34d"; "#fde68a" ].

(** ** Statements inside [try]

    The page type is a parameter: the two copies of the script differ in
    what their page holds. *)

(** A render call inside [try]: the page when it returns, what it throws
    when it throws. *)
Definition Call (P : Type) : Type := P -> Thrown + P.

(** A render function called on [statsData.packages].  [Object.entries]
    (or [Object.values]) throws on a missing object.  The function then
    calls an array method on the [data] of one facet of every package, and
    throws [thrown] at the first package where [bad] finds that this is
    not an array.  Every render function builds its markup or its chart
    data in locals and touches the page in its last statement, so a call
    that throws leaves the page as it was. *)
Definition renderCall {P : Type} (bad : ParsedPackage -> bool) (thrown : Thrown)
    (render : Js.obj PackageStats -> P -> P)
    (packages : option (Js.obj ParsedPackage)) : Call P :=
  fun page =>
    match packages with
    | None => inl NotAnObject
    | Some packages =>
        if existsb bad (Js.Object_values packages) then inl thrown
        else inr (render (shapedPackages packages) page)
    end.

(** The next statement of a [try] block: skipped once something was
    thrown; the page keeps what the earlier statements did to it. *)
Definition andThen {P : Type} (call : Call P) (state : P * option Thrown) :
    P * option Thrown :=
  match state with
  | (page, Some thrown) => (page, Some thrown)
  | (page, None) =>
      match call page with
      | inl thrown => (page, Some thrown)
      | inr page' => (page', None)
      end
  end.

(** What each render function calls on which facet. *)
Definition noArrayMethod (pkgData : ParsedPackage) : bool := false.
Definition overallNotArray (pkgData : ParsedPackage) : bool :=
  notArray (parsed_overall pkgData).
Definition pythonNotArray (pkgData : ParsedPackage) : bool :=
  notArray (parsed_python_versions pkgData).
Definition systemNotArray (pkgData : ParsedPackage) : bool :=
  notArray (parsed_system pkgData).

(* ================================================================== *)
(** * The script *)
(* ================================================================== *)

Section Dashboard.

(** The palette of the copy at hand. *)
Variable COLORS : list string.

(** [Number.prototype.toLocaleString()] in the browser's locale. *)
Variable toLocaleString : Z -> string.

(** [new Date(timestamp).toLocaleString('en-US', {...})] *)
Variable Date_toLocaleString : string -> string.

(** [String.prototype.localeCompare]: negative, zero or positive. *)
Variable localeCompare : string -> string -> Z.

(** The [message] that the engine gives a [TypeError]. *)
Variable TypeError_message : Thrown -> string.

(** [formatNumber(num)]; [None] is [undefined]. *)
Definition formatNumber (num : option Z) : string :=
  match num with
  | None => "0"
  | Some n => if n =? 0 then "0" else toLocaleString n
  end.

(** [updateLastUpdated(timestamp)] *)
Definition updateLastUpdated (timestamp : string) (page : Page) : Page :=
  let formatted := Date_toLocaleString timestamp in
  mkPage (statsData page) ("Last updated: " ++ formatted)
         (summaryCards page) (charts page) (console page).

(** The locals [lastDay] ... [lastMonthWithout] of [renderSummaryCards]. *)
Definition recentWindow (pkgData : PackageStats) : RecentWindow :=
  let recent := data_or (recent pkgData) emptyRecent in
  {| lastDay := Js.num_or (last_day recent) 0;
     lastWeek := Js.num_or (last_week recent) 0;
     lastMonth := Js.num_or (last_month recent) 0;
     lastDayWithout := Js.num_or (last_day_without_mirrors recent) 0;
     lastWeekWithout := Js.num_or (last_week_without_mirrors recent) 0;
     lastMonthWithout := Js.num_or (last_month_without_mirrors recent) 0 |}.

Definition packageCard (entry : string * PackageStats) : Card :=
  let '(pkgName, pkgData) := entry in
  let w := recentWindow pkgData in
  {| cardName := pkgName;
     cardDay := formatNumber (Some (lastDay w));
     cardDayOrganic := formatNumber (Some (lastDayWithout w));
     cardWeek := formatNumber (Some (lastWeek w));
     cardWeekOrganic := formatNumber (Some (lastWeekWithout w));
     cardMonth := formatNumber (Some (lastMonth w));
     cardMonthOrganic := formatNumber (Some (lastMonthWithout w)) |}.

(** [renderSummaryCards(packages)] *)
Definition renderSummaryCards (packages : Js.obj PackageStats) (page : Page) : Page :=
  let html := map packageCard (Js.Object_entries packages) in
  mkPage (statsData page) (lastUpdated page)
         (Cards html) (charts page) (console page).

(** The filter callback [d => !d.category || d.category === 'without_mirrors']. *)
Definition organicOnly (d : DailyPoint.t) : bool :=
  negb (truthy (DailyPoint.category d))
  || strict_eq (DailyPoint.category d) "without_mirrors".

(** The object returned by the map callback. *)
Definition toPoint (d : DailyPoint.t) : Point :=
  {| x := DailyPoint.date d; y := Js.num_or (DailyPoint.downloads d) 0 |}.

Definition byDate (a b : Point) : Z := localeCompare (x a) (x b).

(** [pkgData.overall?.data || []] *)
Definition overallData (pkgData : PackageStats) : list DailyPoint.t :=
  data_or (overall pkgData) [].

(** The local [dataPoints] of one iteration. *)
Definition dataPoints (pkgData : PackageStats) : list Point :=
  Js.Array_sort byDate (map toPoint (filter organicOnly (overallData pkgData))).

(** [COLORS[index % COLORS.length]]; [None] is [undefined]. *)
Definition color (index : nat) : option string :=
  nth_error COLORS (index mod List.length COLORS).

(** [color + '20'] *)
Definition translucent (color : option string) : string :=
  match color with
  | Some c => c ++ "20"
  | None => "undefined20"
  end.

(** One iteration of the [forEach] of [renderTrendsChart] on the captured
    [datasets] and [allDates]. *)
Definition trendsStep (acc : list Dataset.t * list string)
    (entry : string * PackageStats) (index : nat) : list Dataset.t * list string :=
  let '(datasets, allDates) := acc in
  let '(pkgName, pkgData) := entry in
  let kept := filter organicOnly (overallData pkgData) in
  let allDates := fold_left Js.Set_add (map DailyPoint.date kept) allDates in
  let points := dataPoints pkgData in
  if (0 <? List.length points)%nat then
    ((datasets ++ [ {| Dataset.label := pkgName;
                       Dataset.data := points;
                       Dataset.borderColor := color index;
                       Dataset.backgroundColor := translucent (color index) |} ])%list,
     allDates)
  else (datasets, allDates).

(** [datasets] and [allDates] when the [forEach] is over. *)
Definition trends (packages : Js.obj PackageStats) : list Dataset.t * list string :=
  Js.forEach trendsStep (Js.Object_entries packages) ([], []).

(** [renderTrendsChart(packages)] *)
Definition renderTrendsChart (packages : Js.obj PackageStats) (page : Page) : Page :=
  let datasets := fst (trends packages) in
  mkPage (statsData page) (lastUpdated page) (summaryCards page)
         ((charts page ++ [("trendsChart", Line datasets)])%list) (console page).

(** The guard [item.category && item.category !== 'null']. *)
Definition counted (item : CategoryCount.t) : bool :=
  truthy (CategoryCount.category item)
  && strict_neq (CategoryCount.category item) "null".

(** The body of the inner [forEach] of both categorical charts:
    [if (guard) totals[item.category] =
       (totals[item.category] || 0) + (item.downloads || 0)]. *)
Definition addItem (totals : Js.obj Js.value) (item : CategoryCount.t) :
    Js.obj Js.value :=
  if counted item then
    let key := propertyKey (CategoryCount.category item) in
    let downloads := Js.num_or (CategoryCount.downloads item) 0 in
    match Js.get totals key with
    | Some current => Js.set totals key (Js.or0_plus current downloads)
    | None =>
        (* no own property: the value read, if any, is inherited *)
        match Js.Object_prototype key with
        | None => Js.set totals key (Js.Number (Js.add (Js.Finite 0) downloads))
        | Some Js.Method => Js.set totals key (Js.Text key [downloads])
        | Some Js.Accessor => totals
        end
    end
  else totals.

(** [versionTotals] after the loop over [Object.values(packages)]. *)
Definition versionTotals (packages : Js.obj PackageStats) : Js.obj Js.value :=
  fold_left
    (fun totals pkgData =>
       let pythonData := data_or (python_versions pkgData) [] in
       fold_left addItem pythonData totals)
    (Js.Object_values packages) [].

(** The comparator [(a, b) => b[1] - a[1]]. *)
Definition byTotalDesc (a b : string * Js.value) : Z := Js.minus_sign (snd b) (snd a).

Definition sortedVersions (packages : Js.obj PackageStats) : list (string * Js.value) :=
  Js.Array_slice0 10
    (Js.Array_sort byTotalDesc (Js.Object_entries (versionTotals packages))).

(** [renderPythonVersionsChart(packages)] *)
Definition renderPythonVersionsChart (packages : Js.obj PackageStats) (page : Page) : Page :=
  let sorted := sortedVersions packages in
  mkPage (statsData page) (lastUpdated page) (summaryCards page)
         ((charts page ++ [("pythonVersionsChart", Bar (map fst sorted) (map snd sorted))])%list)
         (console page).

(** [systemTotals] after the loop over [Object.values(packages)]. *)
Definition systemTotals (packages : Js.obj PackageStats) : Js.obj Js.value :=
  fold_left
    (fun totals pkgData =>
       let systemData := data_or (system pkgData) [] in
       fold_left addItem systemData totals)
    (Js.Object_values packages) [].

Definition sortedSystems (packages : Js.obj PackageStats) : list (string * Js.value) :=
  Js.Array_sort byTotalDesc (Js.Object_entries (systemTotals packages)).

(** [renderSystemsChart(packages)] *)
Definition renderSystemsChart (packages : Js.obj PackageStats) (page : Page) : Page :=
  let sorted := sortedSystems packages in
  mkPage (statsData page) (lastUpdated page) (summaryCards page)
         ((charts page ++ [("systemsChart", Doughnut (map fst sorted) (map snd sorted))])%list)
         (console page).

Definition statusText (status : Z) : string :=
  DecimalString.NilZero.string_of_int (Z.to_int status).

(** [error.message] *)
Definition errorMessage (error : Exception) : string :=
  match error with
  | HttpError status => "HTTP error! status: " ++ statusText status
  | Rejected message => message
  | TypeError thrown => TypeError_message thrown
  end.

(** The [catch] block of [loadStats]. *)
Definition onError (error : Exception) (page : Page) : Page :=
  let errorMsg :=
    "Error loading statistics: " ++ errorMessage error
    ++ ". Please check the browser console for details." in
  mkPage (statsData page) (lastUpdated page) (ErrorParagraph errorMsg)
         (charts page) ((console page ++ [("Error loading stats:", error)])%list).

(** The four render calls of the [try] block.  The cards read no array;
    the trends chart calls [overall.filter], the two categorical charts
    [pythonData.forEach] and [systemData.forEach]. *)
Definition call_renderSummaryCards : option (Js.obj ParsedPackage) -> Call Page :=
  renderCall noArrayMethod NotAnObject renderSummaryCards.

Definition call_renderTrendsChart : option (Js.obj ParsedPackage) -> Call Page :=
  renderCall overallNotArray (NotAFunction "overall.filter") renderTrendsChart.

Definition call_renderPythonVersionsChart : option (Js.obj ParsedPackage) -> Call Page :=
  renderCall pythonNotArray (NotAFunction "pythonData.forEach") renderPythonVersionsChart.

Definition call_renderSystemsChart : option (Js.obj ParsedPackage) -> Call Page :=
  renderCall systemNotArray (NotAFunction "systemData.forEach") renderSystemsChart.

(** [loadStats()], given what the network did. *)
Definition loadStats (outcome : FetchOutcome) (page : Page) : Page :=
  match outcome with
  | FetchRejected message => onError (Rejected message) page
  | FetchResponse ok status json =>
      if negb ok then onError (HttpError status) page
      else
        match json with
        | inl message => onError (Rejected message) page
        | inr body =>
            let page := mkPage (Some body) (lastUpdated page)
                               (summaryCards page) (charts page) (console page) in
            let page := updateLastUpdated (body_last_updated body) page in
            let packages := body_packages body in
            let '(page, thrown) :=
              andThen (call_renderSystemsChart packages)
                (andThen (call_renderPythonVersionsChart packages)
                   (andThen (call_renderTrendsChart packages)
                      (andThen (call_renderSummaryCards packages) (page, None)))) in
            match thrown with
            | Some thrown => onError (TypeError thrown) page
            | None => page
            end
        end
  end.

End Dashboard.

(* ================================================================== *)
(** * Vocabulary of the statements *)
(* ================================================================== *)

(** A calendar date in the zero-padded form [YYYY-MM-DD]. *)
Definition isDigit (c : ascii) : bool :=
  match Js.digit c with Some _ => true | None => false end.

Definition isoDate (s : string) : bool :=
  match list_ascii_of_string s with
  | [y1; y2; y3; y4; h1; m1; m2; h2; d1; d2] =>
      forallb isDigit [y1; y2; y3; y4; m1; m2; d1; d2]
      && (h1 =? "-")%char && (h2 =? "-")%char
  | _ => false
  end.

(** Code-unit (lexicographic) comparison as a comparator result. *)
Definition codeUnitCompare (a b : string) : Z :=
  match String.compare a b with Lt => -1 | Eq => 0 | Gt => 1 end.

(** Non-decreasing dates under lexicographic comparison. *)
Definition dateLe (a b : Point) : Prop := String.leb (x a) (x b) = true.

Definition sameDate (d : string) (p : Point) : bool := (x p =? d)%string.

(** The filter as the specification words it: category absent, or equal
    to [without_mirrors]. *)
Definition absentOrWithoutMirrors (d : DailyPoint.t) : bool :=
  match DailyPoint.category d with
  | CategoryAbsent => true
  | CategoryStr s => (s =? "without_mirrors")%string
  | CategoryNull => false
  end.

(** The filter as the script applies it: category absent, [null], the
    empty string, or equal to [without_mirrors]. *)
Definition falsyOrWithoutMirrors (d : DailyPoint.t) : bool :=
  match DailyPoint.category d with
  | CategoryAbsent => true
  | CategoryNull => true
  | CategoryStr s => (s =? "")%string || (s =? "without_mirrors")%string
  end.

(** [out] is the series of [points] under the filter [keep]: the kept
    points as (date, downloads) pairs, each as often as it occurs, in
    non-decreasing date order, those of one date in their original order. *)
Definition seriesOf (keep : DailyPoint.t -> bool)
    (out : list Point) (points : list DailyPoint.t) : Prop :=
  let kept := map toPoint (filter keep points) in
  Permutation out kept
  /\ StronglySorted dateLe out
  /\ forall d, filter (sameDate d) out = filter (sameDate d) kept.

(** Every daily point of every package carries a zero-padded date. *)
Definition isoDates (packages : Js.obj PackageStats) : bool :=
  forallb
    (fun entry =>
       forallb (fun d => isoDate (DailyPoint.date d)) (overallData (snd entry)))
    packages.


(** A falsy category: absent, [null] or the empty string. *)
Definition falsyCategory (item : CategoryCount.t) : bool :=
  negb (truthy (CategoryCount.category item)).

(** A missing number read as zero. *)
Definition orZero (value : option Z) : Z :=
  match value with Some n => n | None => 0 end.

(** The downloads of an entry, zero when the field is missing. *)
Definition downloadsOf (item : CategoryCount.t) : Z :=
  orZero (CategoryCount.downloads item).

Definition sumZ (l : list Z) : Z := fold_right Z.add 0 l.

(** All entries of one facet, over all packages, in processing order. *)
Definition facetItems (facet : PackageStats -> option (Envelope (list CategoryCount.t)))
    (packages : Js.obj PackageStats) : list CategoryCount.t :=
  flat_map (fun pkgData => data_or (facet pkgData) []) (Js.Object_values packages).


(** The entries that [addItem] adds under [key]. *)
Definition addsTo (key : string) (item : CategoryCount.t) : bool :=
  counted item && (propertyKey (CategoryCount.category item) =? key)%string.

(** The snapshot without the entries that [drop] selects, in both
    categorical facets. *)
Definition without_items (drop : CategoryCount.t -> bool)
    (facet : option (Envelope (list CategoryCount.t))) :
    option (Envelope (list CategoryCount.t)) :=
  option_map
    (fun envelope =>
       mkEnvelope (option_map (filter (fun item => negb (drop item))) (data envelope)))
    facet.

(** The same keys, in the same order, with [g] applied to each value. *)
Definition map_values {V W : Type} (g : V -> W) (o : Js.obj V) : Js.obj W :=
  map (fun entry => (fst entry, g (snd entry))) o.

Definition without_entries (drop : CategoryCount.t -> bool)
    (packages : Js.obj PackageStats) : Js.obj PackageStats :=
  map_values
    (fun pkgData =>
       mkPackageStats (recent pkgData) (overall pkgData)
         (without_items drop (python_versions pkgData))
         (without_items drop (system pkgData)))
    packages.

(** A daily point with its [category] field removed when it holds the
    empty string. *)
Definition emptyAsAbsent (d : DailyPoint.t) : DailyPoint.t :=
  match DailyPoint.category d with
  | CategoryStr s =>
      if (s =? "")%string
      then DailyPoint.mk (DailyPoint.date d) (DailyPoint.downloads d) CategoryAbsent
      else d
  | _ => d
  end.

(** The snapshot with [f] applied to every daily point. *)
Definition with_points (f : DailyPoint.t -> DailyPoint.t)
    (packages : Js.obj PackageStats) : Js.obj PackageStats :=
  map_values
    (fun pkgData =>
       mkPackageStats (recent pkgData)
         (option_map
            (fun envelope => mkEnvelope (option_map (map f) (data envelope)))
            (overall pkgData))
         (python_versions pkgData) (system pkgData))
    packages.

(** ** Sample snapshots *)

Definition onlyOverall (points : list DailyPoint.t) : PackageStats :=
  mkPackageStats None (Some (mkEnvelope (Some points))) None None.

Definition onlyPythonVersions (items : list CategoryCount.t) : PackageStats :=
  mkPackageStats None None (Some (mkEnvelope (Some items))) None.

Definition onlySystem (items : list CategoryCount.t) : PackageStats :=
  mkPackageStats None None None (Some (mkEnvelope (Some items))).

Definition count (category : string) (downloads : Z) : CategoryCount.t :=
  CategoryCount.mk (CategoryStr category) (Some downloads).

(** Three daily points, one of them mirrored traffic, out of order. *)
Definition threeDays : Js.obj PackageStats :=
  [ ("pkgA",
     onlyOverall
       [ DailyPoint.mk "2025-01-02" (Some 5) CategoryAbsent;
         DailyPoint.mk "2025-01-01" (Some 3) (CategoryStr "with_mirrors");
         DailyPoint.mk "2025-01-01" (Some 2) CategoryAbsent ]) ].

(** One daily point whose category is the empty string. *)
Definition emptyCategoryPackage : PackageStats :=
  onlyOverall [ DailyPoint.mk "2025-01-01" (Some 1) (CategoryStr "") ].

Definition emptyCategoryDay : Js.obj PackageStats :=
  [ ("pkgA", emptyCategoryPackage) ].

(** A package with mirrored traffic only, next to one with an organic point. *)
Definition mirroredOnlyPackage : PackageStats :=
  onlyOverall [ DailyPoint.mk "2025-01-01" (Some 3) (CategoryStr "with_mirrors") ].

Definition mirroredAndOrganic : Js.obj PackageStats :=
  [ ("pkgA", mirroredOnlyPackage);
    ("pkgB", onlyOverall [ DailyPoint.mk "2025-01-01" (Some 2) CategoryAbsent ]) ].

(** Two packages reporting interpreter versions, with an unknown bucket. *)
Definition twoPackages : Js.obj PackageStats :=
  [ ("pkgA", onlyPythonVersions [ count "3.9" 50; count "3.10" 80 ]);
    ("pkgB", onlyPythonVersions [ count "3.10" 20; count "null" 999 ]) ].

(** Two interpreter versions with the same number of downloads. *)
Definition tiedVersions : Js.obj PackageStats :=
  [ ("pkgA", onlyPythonVersions [ count "3.11" 5; count "3.12" 5 ]) ].

(** A recent facet with two of the six fields. *)
Definition pkgA_recent : PackageStats :=
  mkPackageStats
    (Some (mkEnvelope (Some (mkRecentData (Some 100) (Some 700) None None None None))))
    None None None.


(** ** Totals as numbers *)

(** The order of the numbers. *)
Definition numberLeb (a b : Js.number) : bool :=
  match a, b with
  | Js.NegInfinity, _ => true
  | _, Js.PosInfinity => true
  | Js.Finite x, Js.Finite y => x <=? y
  | _, _ => false
  end.

Definition number_eqb (a b : Js.number) : bool :=
  match a, b with
  | Js.Finite x, Js.Finite y => x =? y
  | Js.PosInfinity, Js.PosInfinity => true
  | Js.NegInfinity, Js.NegInfinity => true
  | _, _ => false
  end.

Definition isNumber (entry : string * Js.value) : Prop :=
  exists n, snd entry = Js.Number n.

(** Both totals are numbers, and the second is not the larger one. *)
Definition nonIncreasing (a b : string * Js.value) : Prop :=
  match snd a, snd b with
  | Js.Number x, Js.Number y => numberLeb y x = true
  | _, _ => False
  end.


(** The own key under which a counted entry is added. *)
Definition categoryKey (item : CategoryCount.t) : string :=
  propertyKey (CategoryCount.category item).

Definition ownName (key : string) : bool :=
  match Js.Object_prototype key with
  | None => true
  | Some _ => false
  end.

(** No counted entry has a category that names a property of
    [Object.prototype]. *)
Definition ownNames (items : list CategoryCount.t) : bool :=
  forallb (fun item => ownName (categoryKey item)) (filter counted items).

(** The sum of the magnitudes of the downloads of the counted entries. *)
Definition magnitude (items : list CategoryCount.t) : Z :=
  sumZ (map (fun item => Z.abs (downloadsOf item)) (filter counted items)).

(** The counted downloads stay, taken together, in the range in which a
    double holds every integer. *)
Definition exactRange (items : list CategoryCount.t) : bool :=
  magnitude items <? 2 ^ 53.

(** The sum that repeated [+] computes, left to right from 0. *)
Definition doubleSum (ds : list Z) : Js.number := fold_left Js.add ds (Js.Finite 0).

(** What the totals object holds under [key] once the counts [ds] have
    been added under it, in this order. *)
Definition totalOf (key : string) (ds : list Z) : option Js.value :=
  match Js.Object_prototype key with
  | None => Some (Js.Number (doubleSum ds))
  | Some Js.Method => Some (Js.Text key ds)
  | Some Js.Accessor => None
  end.

(** An entry that the categorical charts leave out, in the words of the
    amended statements: its category is absent, [null], the empty string
    or the string [null]. *)
Definition uncounted (item : CategoryCount.t) : bool :=
  match CategoryCount.category item with
  | CategoryAbsent => true
  | CategoryNull => true
  | CategoryStr s => (s =? "")%string || (s =? "null")%string
  end.



(** The list has a pair for every category of an entry that is not
    excluded. *)
Definition listsEveryCategory (excluded : CategoryCount.t -> bool)
    (items : list CategoryCount.t) (totals : list (string * Js.value)) : Prop :=
  forall item key,
    In item items -> excluded item = false ->
    CategoryCount.category item = CategoryStr key ->
    exists total, In (key, total) totals.

(** An entry that [systemTotals] has no own property for: one that the
    guard leaves out, or one of category [__proto__]. *)
Definition notListed (item : CategoryCount.t) : bool :=
  uncounted item || (categoryKey item =? "__proto__")%string.

(** ** Sample snapshots of the categorical charts *)

(** A category that names a method of [Object.prototype]. *)
Definition inheritedName : Js.obj PackageStats :=
  [ ("pkgA", onlySystem [ count "constructor" 5; count "Linux" 7 ]) ].

(** Two counts whose sum no double holds. *)
Definition largeCounts : Js.obj PackageStats :=
  [ ("pkgA", onlySystem [ count "Linux" 9007199254740992; count "Linux" 1 ]) ].

(** An entry whose category is the empty string. *)
Definition emptyCategorySystem : Js.obj PackageStats :=
  [ ("pkgA", onlySystem [ count "" 4 ]) ].

(** An entry whose category is [__proto__]. *)
Definition protoCategory : Js.obj PackageStats :=
  [ ("pkgA", onlySystem [ count "__proto__" 4 ]) ].

(** ** The loader's outcomes *)




(** The page before the load. *)
Definition blankPage : Page := mkPage None "" StaticMarkup [] [].

(** A document whose one package has daily points and, in place of the
    array of its interpreter versions, a number. *)
Definition versionsNotArray : Body :=
  mkBody "2025-01-02T00:00:00Z"
    (Some
       [ ("pkgA",
          mkParsedPackage None
            (Some (mkEnvelope
                     (Some (IsArray [ DailyPoint.mk "2025-01-01" (Some 2) CategoryAbsent ]))))
            (Some (mkEnvelope (Some NotArray)))
            None) ]).

(** Decimal digits, for the host functions of the examples. *)
Definition decimal (n : Z) : string :=
  DecimalString.NilZero.string_of_int (Z.to_int n).

(* ================================================================== *)
(** * The rest of the script *)
(* ================================================================== *)

(** The copy of the script under [docs/js]: cards with the three raw
    counts, a package-details section, a footer date, the other palette. *)
Module Docs.

Record Card : Type := mkCard
  { cardName : string; cardDay : string; cardWeek : string; cardMonth : string }.

(** One [package-detail] block. *)
Record Detail : Type := mkDetail
  { detailName : string;
    detailDay : string; detailWeek : string; detailMonth : string }.

Inductive SummaryHtml : Type :=
  | StaticMarkup
  | Cards (cards : list Card)
  | ErrorParagraph (errorMsg : string).

Inductive DetailsHtml : Type :=
  | StaticDetails
  | Details (details : list Detail).

Record Page : Type := mkPage
  { statsData : option Body;
    lastUpdated : string;
    footerUpdated : string;
    summaryCards : SummaryHtml;
    packageDetails : DetailsHtml;
    charts : list (string * ChartData);
    console : list (string * Exception) }.

Section Script.

Variable toLocaleString : Z -> string.

(** [date.toLocaleString('en-US', {...})] and
    [date.toLocaleDateString('en-US', {...})] of [new Date(timestamp)]. *)
Variable Date_toLocaleString : string -> string.
Variable Date_toLocaleDateString : string -> string.

Variable localeCompare : string -> string -> Z.
Variable TypeError_message : Thrown -> string.

(** [updateLastUpdated(timestamp)] *)
Definition updateLastUpdated (timestamp : string) (page : Page) : Page :=
  let formatted := Date_toLocaleString timestamp in
  let dateOnly := Date_toLocaleDateString timestamp in
  mkPage (statsData page) ("Last updated: " ++ formatted)
         ("Updated on " ++ dateOnly)
         (summaryCards page) (packageDetails page) (charts page) (console page).

Definition packageCard (entry : string * PackageStats) : Card :=
  let '(pkgName, pkgData) := entry in
  let recent := data_or (recent pkgData) emptyRecent in
  let lastDay := Js.num_or (last_day recent) 0 in
  let lastWeek := Js.num_or (last_week recent) 0 in
  let lastMonth := Js.num_or (last_month recent) 0 in
  {| cardName := pkgName;
     cardDay := formatNumber toLocaleString (Some lastDay);
     cardWeek := formatNumber toLocaleString (Some lastWeek);
     cardMonth := formatNumber toLocaleString (Some lastMonth) |}.

(** [renderSummaryCards(packages)] *)
Definition renderSummaryCards (packages : Js.obj PackageStats) (page : Page) : Page :=
  let html := map packageCard (Js.Object_entries packages) in
  mkPage (statsData page) (lastUpdated page) (footerUpdated page)
         (Cards html) (packageDetails page) (charts page) (console page).

Definition packageDetail (entry : string * PackageStats) : Detail :=
  let '(pkgName, pkgData) := entry in
  let recent := data_or (recent pkgData) emptyRecent in
  {| detailName := pkgName;
     detailDay := formatNumber toLocaleString (last_day recent);
     detailWeek := formatNumber toLocaleString (last_week recent);
     detailMonth := formatNumber toLocaleString (last_month recent) |}.

(** [renderPackageDetails(packages)] *)
Definition renderPackageDetails (packages : Js.obj PackageStats) (page : Page) : Page :=
  let html := map packageDetail (Js.Object_entries packages) in
  mkPage (statsData page) (lastUpdated page) (footerUpdated page)
         (summaryCards page) (Details html) (charts page) (console page).

Definition addChart (chart : string * ChartData) (page : Page) : Page :=
  mkPage (statsData page) (lastUpdated page) (footerUpdated page)
         (summaryCards page) (packageDetails page)
         ((charts page ++ [chart])%list) (console page).

(** [renderTrendsChart(packages)] *)
Definition renderTrendsChart (packages : Js.obj PackageStats) (page : Page) : Page :=
  let datasets := fst (trends COLORS_docs localeCompare packages) in
  addChart ("trendsChart", Line datasets) page.

(** [renderPythonVersionsChart(packages)] *)
Definition renderPythonVersionsChart (packages : Js.obj PackageStats) (page : Page) : Page :=
  let sorted := sortedVersions packages in
  addChart ("pythonVersionsChart", Bar (map fst sorted) (map snd sorted)) page.

(** [renderSystemsChart(packages)] *)
Definition renderSystemsChart (packages : Js.obj PackageStats) (page : Page) : Page :=
  let sorted := sortedSystems packages in
  addChart ("systemsChart", Doughnut (map fst sorted) (map snd sorted)) page.

(** The [catch] block of [loadStats]. *)
Definition onError (error : Exception) (page : Page) : Page :=
  let errorMsg :=
    "Error loading statistics: " ++ errorMessage TypeError_message error
    ++ ". Please check the browser console for details." in
  mkPage (statsData page) (lastUpdated page) (footerUpdated page)
         (ErrorParagraph errorMsg) (packageDetails page)
         (charts page) ((console page ++ [("Error loading stats:", error)])%list).

(** [loadStats()], given what the network did: the five render calls of
    this copy, the package details between the trends chart and the
    categorical charts. *)
Definition loadStats (outcome : FetchOutcome) (page : Page) : Page :=
  match outcome with
  | FetchRejected message => onError (Rejected message) page
  | FetchResponse ok status json =>
      if negb ok then onError (HttpError status) page
      else
        match json with
        | inl message => onError (Rejected message) page
        | inr body =>
            let page := mkPage (Some body) (lastUpdated page) (footerUpdated page)
                               (summaryCards page) (packageDetails page)
                               (charts page) (console page) in
            let page := updateLastUpdated (body_last_updated body) page in
            let packages := body_packages body in
            let '(page, thrown) :=
              andThen
                (renderCall systemNotArray (NotAFunction "systemData.forEach")
                   renderSystemsChart packages)
                (andThen
                   (renderCall pythonNotArray (NotAFunction "pythonData.forEach")
                      renderPythonVersionsChart packages)
                   (andThen
                      (renderCall noArrayMethod NotAnObject renderPackageDetails packages)
                      (andThen
                         (renderCall overallNotArray (NotAFunction "overall.filter")
                            renderTrendsChart packages)
                         (andThen
                            (renderCall noArrayMethod NotAnObject renderSummaryCards
                               packages)
                            (page, None))))) in
            match thrown with
            | Some thrown => onError (TypeError thrown) page
            | None => page
            end
        end
  end.

End Script.
End Docs.

(** ** Vocabulary of the further statements *)

(** The package has a daily point that passes the filter. *)
Definition hasPoints (entry : string * PackageStats) : bool :=
  existsb organicOnly (overallData (snd entry)).

(** The keys of a list in the order of their first occurrence. *)
Definition firstSeen (keys : list string) : list string :=
  fold_left Js.Set_add keys [].

(** The object that gets the properties [keys], in this order. *)
Definition objectOf (keys : list string) : Js.obj unit :=
  map (fun key => (key, tt)) keys.

(** Three categories with the same count, two of them array indices. *)
Definition indexCategories : Js.obj PackageStats :=
  [ ("pkgA", onlySystem [ count "b" 1; count "10" 1; count "2" 1 ]) ].

(** No key of the object is an array index. *)
Definition noIndexKeys {V : Type} (o : Js.obj V) : bool :=
  forallb (fun entry => negb (Js.is_index entry)) o.

(** No entry has a negative count. *)
Definition nonNegative (items : list CategoryCount.t) : bool :=
  forallb (fun item => 0 <=? downloadsOf item) items.

(** The total of the entry is the number [total]. *)
Definition sameTotal (total : Js.number) (entry : string * Js.value) : bool :=
  match snd entry with
  | Js.Number n => number_eqb n total
  | Js.Text _ _ => false
  end.

(** An integer as a total. *)
Definition finite (z : Z) : Js.value := Js.Number (Js.Finite z).

(** An entry that gets an own property in the totals object. *)
Definition listed (item : CategoryCount.t) : bool := negb (notListed item).

(** The error that ends a load before any body is there: a rejected
    fetch, a response that is not a success, a body that is no JSON text. *)
Definition networkFailure (outcome : FetchOutcome) : option Exception :=
  match outcome with
  | FetchRejected message => Some (Rejected message)
  | FetchResponse false status _ => Some (HttpError status)
  | FetchResponse true _ (inl message) => Some (Rejected message)
  | FetchResponse true _ (inr _) => None
  end.

(** The raw fields of [recent.data], [{}] when the facet is missing. *)
Definition recentFields (pkgData : PackageStats) : RecentData :=
  data_or (recent pkgData) emptyRecent.

(** Sample snapshots of the further statements. *)
Definition threeSystems : Js.obj PackageStats :=
  [ ("pkgA", onlySystem [ count "Linux" 7; count "Darwin" 3 ]);
    ("pkgB", onlySystem [ count "Windows" 3; count "Linux" 1 ]) ].

(** The same two packages in the other order. *)
Definition threeSystemsSwapped : Js.obj PackageStats :=
  [ ("pkgB", onlySystem [ count "Windows" 3; count "Linux" 1 ]);
    ("pkgA", onlySystem [ count "Linux" 7; count "Darwin" 3 ]) ].

(** A package that keeps only its [recent] facet. *)
Definition onlyRecent (pkgData : PackageStats) : PackageStats :=
  mkPackageStats (recent pkgData) None None None.

(* ================================================================== *)
(** * Facts about the primitives *)
(* ================================================================== *)

Example Object_entries_order :
  Js.Object_entries [("b", 1); ("10", 2); ("a", 3); ("2", 4); ("01", 5)]
  = [("2", 4); ("10", 2); ("b", 1); ("a", 3); ("01", 5)].
Proof. reflexivity. Qed.

Section SortFacts.
Context {A : Type}.
Variable comparefn : A -> A -> Z.

Lemma sort_insert_perm (a : A) (l : list A) :
  Permutation (Js.sort_insert comparefn a l) (a :: l).
Proof.
  induction l as [|b l IH]; simpl.
  - apply Permutation_refl.
  - destruct (comparefn a b <=? 0).
    + apply Permutation_refl.
    + eapply perm_trans; [apply perm_skip, IH | apply perm_swap].
Qed.

Lemma Array_sort_perm (l : list A) : Permutation (Js.Array_sort comparefn l) l.
Proof.
  induction l as [|a l IH]; simpl.
  - apply perm_nil.
  - eapply perm_trans; [apply sort_insert_perm | apply perm_skip, IH].
Qed.

Lemma Array_sort_In (a : A) (l : list A) :
  In a (Js.Array_sort comparefn l) <-> In a l.
Proof.
  split; apply Permutation_in;
    [apply Array_sort_perm | apply Permutation_sym, Array_sort_perm].
Qed.

Lemma Array_sort_length (l : list A) :
  List.length (Js.Array_sort comparefn l) = List.length l.
Proof. apply Permutation_length, Array_sort_perm. Qed.

(** Sortedness, for a comparator that is consistent on the elements at
    hand: [R] is what a non-positive result means, a positive result means
    [R] the other way round, and [R] is transitive. *)
Section Sorted.
Variable R : A -> A -> Prop.
Variable dom : A -> Prop.
Hypothesis R_le : forall a b, dom a -> dom b -> comparefn a b <= 0 -> R a b.
Hypothesis R_gt : forall a b, dom a -> dom b -> 0 < comparefn a b -> R b a.
Hypothesis R_trans : forall a b c, R a b -> R b c -> R a c.

Lemma sort_insert_sorted (a : A) (l : list A) :
  dom a -> Forall dom l -> StronglySorted R l ->
  StronglySorted R (Js.sort_insert comparefn a l).
Proof.
  intros Ha Hl Hs.
  induction l as [|b l IH]; simpl.
  - constructor; [constructor | constructor].
  - inversion Hl as [|? ? Hb Hl']; subst.
    inversion Hs as [|? ? Hs' Hbl]; subst.
    destruct (Z.leb_spec (comparefn a b) 0) as [Hle|Hgt].
    + constructor; [assumption|].
      constructor; [now apply R_le|].
      eapply Forall_impl; [|exact Hbl].
      intros c Hbc. eapply R_trans; [apply R_le|]; eassumption.
    + constructor; [now apply IH|].
      rewrite Forall_forall. intros c Hc.
      apply (Permutation_in _ (sort_insert_perm a l)) in Hc.
      destruct Hc as [<-|Hc].
      * now apply R_gt.
      * rewrite Forall_forall in Hbl. now apply Hbl.
Qed.

Lemma Array_sort_sorted (l : list A) :
  Forall dom l -> StronglySorted R (Js.Array_sort comparefn l).
Proof.
  induction l as [|a l IH]; intros Hl; simpl.
  - constructor.
  - inversion Hl as [|? ? Ha Hl']; subst.
    apply sort_insert_sorted; [assumption| |now apply IH].
    rewrite Forall_forall in *. intros c Hc.
    apply Hl'. exact (proj1 (Array_sort_In c l) Hc).
Qed.
End Sorted.

(** Stability: the elements of a class [K] whose members the comparator
    never orders backwards keep their relative order. *)
Section Stable.
Variable K : A -> bool.

Lemma sort_insert_filter (a : A) (l : list A) :
  (forall b, In b l -> K a = true -> K b = true -> comparefn a b <= 0) ->
  filter K (Js.sort_insert comparefn a l) = filter K (a :: l).
Proof.
  induction l as [|b l IH]; intros Htie; simpl.
  - reflexivity.
  - destruct (Z.leb_spec (comparefn a b) 0) as [Hle|Hgt].
    + reflexivity.
    + simpl. rewrite IH by (intros c Hc; apply (Htie c); right; exact Hc).
      simpl. destruct (K a) eqn:Ka, (K b) eqn:Kb; try reflexivity.
      specialize (Htie b (or_introl eq_refl) eq_refl Kb). lia.
Qed.

Lemma Array_sort_stable (l : list A) :
  (forall a b, In a l -> In b l -> K a = true -> K b = true ->
               comparefn a b <= 0) ->
  filter K (Js.Array_sort comparefn l) = filter K l.
Proof.
  induction l as [|a l IH]; intros Htie; simpl.
  - reflexivity.
  - rewrite sort_insert_filter.
    + simpl. rewrite IH; [reflexivity|].
      intros b c Hb Hc. apply (Htie b c); right; assumption.
    + intros b Hb. apply (Htie a b); [now left|].
      right. exact (proj1 (Array_sort_In b l) Hb).
Qed.
End Stable.

(** The model loses nothing: for a consistent comparator there is only
    one sorted arrangement that keeps tied elements in their order, so
    every stable sort returns what [Js.Array_sort] returns. *)
Section Unique.
Hypothesis cmp_refl : forall a, comparefn a a = 0.
Hypothesis cmp_flip : forall a b, comparefn a b < 0 <-> 0 < comparefn b a.
Hypothesis cmp_trans :
  forall a b c, comparefn a b <= 0 -> comparefn b c <= 0 -> comparefn a c <= 0.
Hypothesis cmp_tie :
  forall a b c, comparefn a b = 0 -> comparefn a c = 0 -> comparefn b c = 0.

Lemma stable_sorted_unique (l1 : list A) :
  forall l2,
    StronglySorted (fun a b => comparefn a b <= 0) l1 ->
    StronglySorted (fun a b => comparefn a b <= 0) l2 ->
    (forall a, filter (fun b => comparefn a b =? 0) l1
               = filter (fun b => comparefn a b =? 0) l2) ->
    l1 = l2.
Proof.
  assert (Hin : forall a (l : list A),
            In a l -> In a (filter (fun b => comparefn a b =? 0) l)).
  { intros a l Ha. apply filter_In. split; [exact Ha|].
    rewrite cmp_refl. reflexivity. }
  induction l1 as [|a l1 IH]; intros l2 Hs1 Hs2 Hsame.
  - destruct l2 as [|b l2]; [reflexivity|].
    specialize (Hin b (b :: l2) (or_introl eq_refl)).
    rewrite <- Hsame in Hin. destruct Hin.
  - inversion Hs1 as [|? ? Hs1' Hall1]; subst.
    destruct l2 as [|b l2].
    + specialize (Hin a (a :: l1) (or_introl eq_refl)).
      rewrite Hsame in Hin. destruct Hin.
    + inversion Hs2 as [|? ? Hs2' Hall2]; subst.
      assert (Hab : a = b).
      { assert (Ha := Hsame a). simpl in Ha. rewrite cmp_refl in Ha. simpl in Ha.
        destruct (comparefn a b =? 0) eqn:Htie; [congruence|].
        assert (Ha2 : In a l2).
        { assert (H : In a (filter (fun c => comparefn a c =? 0) l2))
            by (rewrite <- Ha; now left).
          now apply filter_In in H. }
        assert (Hb := Hsame b). simpl in Hb. rewrite cmp_refl in Hb. simpl in Hb.
        assert (Hb1 : In b (a :: l1)).
        { assert (H : In b (filter (fun c => comparefn b c =? 0) (a :: l1)))
            by (simpl; rewrite Hb; now left).
          now apply filter_In in H. }
        rewrite Forall_forall in Hall1, Hall2.
        assert (Hba : comparefn b a <= 0) by now apply Hall2.
        apply Z.eqb_neq in Htie.
        destruct Hb1 as [Heq|Hb1]; [congruence|].
        assert (Hle : comparefn a b <= 0) by now apply Hall1.
        assert (Hlt : comparefn a b < 0) by lia.
        apply cmp_flip in Hlt. lia. }
      subst b. f_equal. apply IH; [assumption..|].
      intros c. specialize (Hsame c). simpl in Hsame.
      destruct (comparefn c a =? 0); congruence.
Qed.

Lemma Array_sort_unique (l sorted : list A) :
  StronglySorted (fun a b => comparefn a b <= 0) sorted ->
  (forall a, filter (fun b => comparefn a b =? 0) sorted
             = filter (fun b => comparefn a b =? 0) l) ->
  sorted = Js.Array_sort comparefn l.
Proof.
  intros Hs Hsame. apply stable_sorted_unique; [exact Hs| |].
  - apply Array_sort_sorted with (dom := fun _ => True).
    + intros a b _ _ H. exact H.
    + intros a b _ _ H. apply cmp_flip in H. lia.
    + exact cmp_trans.
    + rewrite Forall_forall. trivial.
  - intros a. rewrite Hsame. symmetry. apply Array_sort_stable.
    intros b c _ _ Hb Hc. apply Z.eqb_eq in Hb, Hc.
    rewrite (cmp_tie a b c Hb Hc). lia.
Qed.
End Unique.
End SortFacts.

Section ObjectFacts.
Context {V : Type}.

Lemma filter_split_perm {B : Type} (f : B -> bool) (l : list B) :
  Permutation (filter f l ++ filter (fun b => negb (f b)) l)%list l.
Proof.
  induction l as [|b l IH]; simpl.
  - apply perm_nil.
  - destruct (f b); simpl.
    + now apply perm_skip.
    + eapply perm_trans; [apply Permutation_sym, Permutation_middle|].
      now apply perm_skip.
Qed.

Lemma Object_entries_perm (o : Js.obj V) : Permutation (Js.Object_entries o) o.
Proof.
  unfold Js.Object_entries.
  eapply perm_trans; [|apply (filter_split_perm Js.is_index)].
  apply Permutation_app_tail, Array_sort_perm.
Qed.

Lemma Object_entries_In (p : string * V) (o : Js.obj V) :
  In p (Js.Object_entries o) <-> In p o.
Proof.
  split; apply Permutation_in;
    [apply Object_entries_perm | apply Permutation_sym, Object_entries_perm].
Qed.

Lemma Object_values_In (v : V) (o : Js.obj V) :
  In v (Js.Object_values o) <-> exists k, In (k, v) o.
Proof.
  unfold Js.Object_values. rewrite in_map_iff. split.
  - intros [[k v'] [Hv Hin]]. simpl in Hv. subst v'.
    exists k. now apply Object_entries_In.
  - intros [k Hin]. exists (k, v). split; [reflexivity|].
    now apply Object_entries_In.
Qed.

Lemma Object_entries_keys_NoDup (o : Js.obj V) :
  NoDup (map fst o) -> NoDup (map fst (Js.Object_entries o)).
Proof.
  intros Hnd. eapply Permutation_NoDup; [|exact Hnd].
  apply Permutation_map, Permutation_sym, Object_entries_perm.
Qed.

Lemma get_set (o : Js.obj V) (k k' : string) (v : V) :
  Js.get (Js.set o k v) k' = if (k' =? k)%string then Some v else Js.get o k'.
Proof.
  induction o as [|[k0 v0] o IH]; simpl.
  - reflexivity.
  - destruct (String.eqb_spec k k0) as [->|Hk]; simpl.
    + destruct (String.eqb_spec k' k0); reflexivity.
    + rewrite IH.
      destruct (String.eqb_spec k' k0) as [->|]; [|reflexivity].
      destruct (String.eqb_spec k0 k); [congruence|reflexivity].
Qed.

Lemma set_keys (o : Js.obj V) (k k' : string) (v : V) :
  In k' (map fst (Js.set o k v)) <-> k' = k \/ In k' (map fst o).
Proof.
  induction o as [|[k0 v0] o IH]; simpl.
  - intuition.
  - destruct (String.eqb_spec k k0) as [->|Hk]; simpl.
    + intuition.
    + rewrite IH. intuition.
Qed.

Lemma set_keys_NoDup (o : Js.obj V) (k : string) (v : V) :
  NoDup (map fst o) -> NoDup (map fst (Js.set o k v)).
Proof.
  induction o as [|[k0 v0] o IH]; simpl; intros Hnd.
  - constructor; [intros []|constructor].
  - inversion Hnd as [|? ? Hnotin Hnd']; subst.
    destruct (String.eqb_spec k k0) as [->|Hk]; simpl.
    + now constructor.
    + constructor; [|now apply IH].
      rewrite set_keys. intros [->|Hin]; [congruence|contradiction].
Qed.

Lemma get_key (o : Js.obj V) (k : string) :
  Js.get o k <> None <-> In k (map fst o).
Proof.
  induction o as [|[k0 v0] o IH]; simpl.
  - intuition.
  - destruct (String.eqb_spec k k0) as [->|Hk].
    + split; [now left|discriminate].
    + rewrite IH. split; [now right|]. intros [->|Hin]; [congruence|assumption].
Qed.

Lemma get_In (o : Js.obj V) (k : string) (v : V) :
  NoDup (map fst o) -> (In (k, v) o <-> Js.get o k = Some v).
Proof.
  induction o as [|[k0 v0] o IH]; simpl; intros Hnd.
  - split; [intros []|discriminate].
  - inversion Hnd as [|? ? Hnotin Hnd']; subst.
    destruct (String.eqb_spec k k0) as [->|Hk].
    + split.
      * intros [Heq|Hin]; [congruence|].
        exfalso. apply Hnotin. apply in_map_iff. now exists (k0, v).
      * intros Heq. left. congruence.
    + rewrite <- (IH Hnd'). split; [|now right].
      intros [Heq|Hin]; [congruence|assumption].
Qed.
End ObjectFacts.

Lemma num_or_zero (value : option Z) : Js.num_or value 0 = orZero value.
Proof.
  destruct value as [n|]; simpl; [|reflexivity].
  destruct (Z.eqb_spec n 0); congruence.
Qed.

Lemma Set_add_In (s : list string) (a d : string) :
  In d (Js.Set_add s a) <-> In d s \/ d = a.
Proof.
  unfold Js.Set_add. destruct (existsb (String.eqb a) s) eqn:E.
  - apply existsb_exists in E. destruct E as [a' [Hin Heq]].
    apply String.eqb_eq in Heq. subst a'. intuition congruence.
  - rewrite in_app_iff. simpl. intuition.
Qed.

Lemma fold_Set_add_In (l s : list string) (d : string) :
  In d (fold_left Js.Set_add l s) <-> In d s \/ In d l.
Proof.
  revert s. induction l as [|a l IH]; intros s; simpl.
  - intuition.
  - rewrite IH, Set_add_In. intuition.
Qed.

Lemma Set_add_NoDup (s : list string) (a : string) :
  NoDup s -> NoDup (Js.Set_add s a).
Proof.
  intros Hnd. unfold Js.Set_add. destruct (existsb (String.eqb a) s) eqn:E.
  - assumption.
  - apply NoDup_app; [assumption|constructor; [intros []|constructor]|].
    intros d Hd [Heq|[]]. subst d.
    assert (existsb (String.eqb a) s = true); [|congruence].
    apply existsb_exists. exists a. split; [assumption|apply String.eqb_refl].
Qed.

Lemma fold_Set_add_NoDup (l s : list string) :
  NoDup s -> NoDup (fold_left Js.Set_add l s).
Proof.
  revert s. induction l as [|a l IH]; intros s Hnd; simpl.
  - assumption.
  - apply IH, Set_add_NoDup, Hnd.
Qed.

Section StringOrder.

Lemma ascii_compare_refl (a : ascii) : Ascii.compare a a = Eq.
Proof. unfold Ascii.compare. apply N.compare_refl. Qed.

Lemma ascii_compare_lt_trans (a b c : ascii) :
  Ascii.compare a b = Lt -> Ascii.compare b c = Lt -> Ascii.compare a c = Lt.
Proof.
  unfold Ascii.compare. rewrite !N.compare_lt_iff. lia.
Qed.

Lemma string_compare_refl (s : string) : String.compare s s = Eq.
Proof.
  induction s as [|a s IH]; simpl; [reflexivity|].
  now rewrite ascii_compare_refl.
Qed.

Lemma string_compare_lt_trans (s t u : string) :
  String.compare s t = Lt -> String.compare t u = Lt -> String.compare s u = Lt.
Proof.
  revert t u. induction s as [|a s IH]; intros [|b t] [|c u]; simpl;
    try discriminate; try reflexivity.
  destruct (Ascii.compare a b) eqn:Hab; try discriminate;
    destruct (Ascii.compare b c) eqn:Hbc; try discriminate; intros Hst Htu.
  - apply Ascii.compare_eq_iff in Hab, Hbc. subst.
    rewrite ascii_compare_refl. eapply IH; eassumption.
  - apply Ascii.compare_eq_iff in Hab. subst. now rewrite Hbc.
  - apply Ascii.compare_eq_iff in Hbc. subst. now rewrite Hab.
  - now rewrite (ascii_compare_lt_trans _ _ _ Hab Hbc).
Qed.

Lemma string_leb_trans (s t u : string) :
  String.leb s t = true -> String.leb t u = true -> String.leb s u = true.
Proof.
  unfold String.leb.
  destruct (String.compare s t) eqn:Hst; try discriminate;
    destruct (String.compare t u) eqn:Htu; try discriminate; intros _ _.
  - apply String.compare_eq_iff in Hst, Htu. subst.
    now rewrite string_compare_refl.
  - apply String.compare_eq_iff in Hst. subst. now rewrite Htu.
  - apply String.compare_eq_iff in Htu. subst. now rewrite Hst.
  - now rewrite (string_compare_lt_trans _ _ _ Hst Htu).
Qed.

Lemma codeUnitCompare_sign (a b : string) :
  (codeUnitCompare a b ?= 0) = String.compare a b.
Proof. unfold codeUnitCompare. now destruct (String.compare a b). Qed.

End StringOrder.

(* ================================================================== *)
(** * The daily time series ([renderTrendsChart]) *)
(* ================================================================== *)

Lemma organicOnly_spec (d : DailyPoint.t) :
  organicOnly d = falsyOrWithoutMirrors d.
Proof.
  unfold organicOnly, falsyOrWithoutMirrors, truthy, strict_eq.
  destruct (DailyPoint.category d) as [| |s]; try reflexivity.
  now rewrite negb_involutive.
Qed.

Lemma filter_organicOnly (points : list DailyPoint.t) :
  filter organicOnly points = filter falsyOrWithoutMirrors points.
Proof. apply filter_ext, organicOnly_spec. Qed.

Lemma positive_length {A : Type} (l : list A) :
  (0 <? List.length l)%nat = true <-> l <> [].
Proof.
  destruct l; simpl; split; intros H; try congruence; try discriminate.
  reflexivity.
Qed.

Section TimeSeries.
Variable COLORS : list string.
Variable localeCompare : string -> string -> Z.

Lemma dataPoints_nil (pkgData : PackageStats) :
  dataPoints localeCompare pkgData = []
  <-> filter falsyOrWithoutMirrors (overallData pkgData) = [].
Proof.
  unfold dataPoints. rewrite filter_organicOnly.
  split; intros H.
  - apply (f_equal (@List.length Point)) in H.
    rewrite Array_sort_length, length_map in H.
    now apply length_zero_iff_nil.
  - now rewrite H.
Qed.

(** The datasets after the loop: those there before, and one per entry
    with a non-empty series, labelled by the entry's key. *)
Lemma forEach_datasets_sound (l : list (string * PackageStats)) :
  forall index datasets allDates ds,
    In ds (fst (Js.forEach_from (trendsStep COLORS localeCompare) index l
                  (datasets, allDates))) ->
    In ds datasets
    \/ exists pkgData,
         In (Dataset.label ds, pkgData) l
         /\ Dataset.data ds = dataPoints localeCompare pkgData
         /\ Dataset.data ds <> [].
Proof.
  induction l as [|[pkgName pkgData] l IH]; intros index datasets allDates ds; simpl.
  - now left.
  - destruct (0 <? List.length (dataPoints localeCompare pkgData))%nat eqn:E;
      intros H; apply IH in H.
    + apply positive_length in E. rewrite in_app_iff in H. simpl in H.
      destruct H as [[H|[H|[]]]|[pkg [Hin Hd]]].
      * now left.
      * subst ds. right. exists pkgData. simpl. auto.
      * right. exists pkg. auto.
    + destruct H as [H|[pkg [Hin Hd]]]; [now left|].
      right. exists pkg. auto.
Qed.

Lemma forEach_datasets_keep (l : list (string * PackageStats)) :
  forall index datasets allDates ds,
    In ds datasets ->
    In ds (fst (Js.forEach_from (trendsStep COLORS localeCompare) index l
                  (datasets, allDates))).
Proof.
  induction l as [|[pkgName pkgData] l IH]; intros index datasets allDates ds H; simpl.
  - exact H.
  - destruct (0 <? List.length (dataPoints localeCompare pkgData))%nat;
      apply IH; [apply in_or_app; now left | exact H].
Qed.

Lemma forEach_datasets_complete (l : list (string * PackageStats)) :
  forall index datasets allDates pkgName pkgData,
    In (pkgName, pkgData) l ->
    dataPoints localeCompare pkgData <> [] ->
    exists ds,
      In ds (fst (Js.forEach_from (trendsStep COLORS localeCompare) index l
                    (datasets, allDates)))
      /\ Dataset.label ds = pkgName
      /\ Dataset.data ds = dataPoints localeCompare pkgData.
Proof.
  induction l as [|[name0 pkg0] l IH];
    intros index datasets allDates pkgName pkgData Hin Hne; simpl.
  - destruct Hin.
  - destruct Hin as [Heq|Hin].
    + inversion Heq; subst. apply positive_length in Hne. rewrite Hne.
      eexists. split; [apply forEach_datasets_keep, in_or_app; right; now left|].
      split; reflexivity.
    + destruct (0 <? List.length (dataPoints localeCompare pkg0))%nat;
        now apply IH.
Qed.

(** [allDates] after the loop: the dates there before, and the date of
    every point that passes the filter. *)
Lemma forEach_allDates (l : list (string * PackageStats)) :
  forall index datasets allDates d,
    In d (snd (Js.forEach_from (trendsStep COLORS localeCompare) index l
                 (datasets, allDates)))
    <-> In d allDates
        \/ exists pkgName pkgData point,
             In (pkgName, pkgData) l
             /\ In point (overallData pkgData)
             /\ falsyOrWithoutMirrors point = true
             /\ DailyPoint.date point = d.
Proof.
  induction l as [|[name0 pkg0] l IH]; intros index datasets allDates d; simpl.
  - split; [now left|]. intros [H|[? [? [? [[] _]]]]]. exact H.
  - assert (Hstep :
      In d (fold_left Js.Set_add
              (map DailyPoint.date (filter organicOnly (overallData pkg0))) allDates)
      <-> In d allDates
          \/ exists point, In point (overallData pkg0)
               /\ falsyOrWithoutMirrors point = true /\ DailyPoint.date point = d).
    { rewrite fold_Set_add_In, in_map_iff. split.
      - intros [H|[point [Hd Hin]]]; [now left|]. right.
        apply filter_In in Hin. destruct Hin as [Hin Hk].
        rewrite organicOnly_spec in Hk. eauto.
      - intros [H|[point [Hin [Hk Hd]]]]; [now left|]. right.
        exists point. split; [exact Hd|]. apply filter_In.
        rewrite organicOnly_spec. auto. }
    destruct (0 <? List.length (dataPoints localeCompare pkg0))%nat;
      rewrite IH, Hstep; clear IH Hstep.
    all: split.
    all: try (intros [[H|[point [Hin [Hk Hd]]]]|[n [pk [pt [Hin H]]]]];
      [ now left
      | right; exists name0, pkg0, point; intuition
      | right; exists n, pk, pt; intuition ]).
    all: intros [H|[n [pk [pt [[Heq|Hin] H]]]]];
      [ now left; left
      | inversion Heq; subst; left; right; exists pt; exact H
      | right; exists n, pk, pt; intuition ].
Qed.

Lemma forEach_allDates_NoDup (l : list (string * PackageStats)) :
  forall index datasets allDates,
    NoDup allDates ->
    NoDup (snd (Js.forEach_from (trendsStep COLORS localeCompare) index l
                  (datasets, allDates))).
Proof.
  induction l as [|[name0 pkg0] l IH]; intros index datasets allDates Hnd; simpl.
  - exact Hnd.
  - destruct (0 <? List.length (dataPoints localeCompare pkg0))%nat;
      apply IH, fold_Set_add_NoDup, Hnd.
Qed.

End TimeSeries.

(** The two copies of the script draw the same series in different
    colours. *)
Lemma forEach_palette (palette palette' : list string)
    (localeCompare : string -> string -> Z) (l : list (string * PackageStats)) :
  forall index datasets datasets' allDates,
    map (fun ds => (Dataset.label ds, Dataset.data ds)) datasets
    = map (fun ds => (Dataset.label ds, Dataset.data ds)) datasets' ->
    let result := Js.forEach_from (trendsStep palette localeCompare) index l
                    (datasets, allDates) in
    let result' := Js.forEach_from (trendsStep palette' localeCompare) index l
                     (datasets', allDates) in
    map (fun ds => (Dataset.label ds, Dataset.data ds)) (fst result)
    = map (fun ds => (Dataset.label ds, Dataset.data ds)) (fst result')
    /\ snd result = snd result'.
Proof.
  induction l as [|[pkgName pkgData] l IH];
    intros index datasets datasets' allDates Hsame; simpl.
  - split; [exact Hsame|reflexivity].
  - destruct (0 <? List.length (dataPoints localeCompare pkgData))%nat.
    + apply IH. rewrite !map_app, Hsame. reflexivity.
    + apply IH. exact Hsame.
Qed.

Lemma trends_palette (localeCompare : string -> string -> Z)
    (packages : Js.obj PackageStats) :
  map (fun ds => (Dataset.label ds, Dataset.data ds))
    (fst (trends COLORS_theme localeCompare packages))
  = map (fun ds => (Dataset.label ds, Dataset.data ds))
      (fst (trends COLORS_docs localeCompare packages))
  /\ snd (trends COLORS_theme localeCompare packages)
     = snd (trends COLORS_docs localeCompare packages).
Proof. apply forEach_palette. reflexivity. Qed.

Section TimeSeriesOrder.
Variable COLORS : list string.
Variable localeCompare : string -> string -> Z.

(** On zero-padded dates the collation of the host orders as the code
    units do. *)
Hypothesis localeCompare_iso :
  forall a b, isoDate a = true -> isoDate b = true ->
              (localeCompare a b ?= 0) = String.compare a b.

Lemma dataPoints_seriesOf (pkgData : PackageStats) :
  forallb (fun d => isoDate (DailyPoint.date d)) (overallData pkgData) = true ->
  seriesOf falsyOrWithoutMirrors
    (dataPoints localeCompare pkgData) (overallData pkgData).
Proof.
  intros Hiso. unfold seriesOf, dataPoints. rewrite filter_organicOnly.
  set (kept := map toPoint (filter falsyOrWithoutMirrors (overallData pkgData))).
  assert (Hdom : Forall (fun p => isoDate (x p) = true) kept).
  { rewrite Forall_forall. intros p Hp. unfold kept in Hp.
    apply in_map_iff in Hp. destruct Hp as [d [<- Hd]].
    apply filter_In in Hd. destruct Hd as [Hd _].
    rewrite forallb_forall in Hiso. exact (Hiso d Hd). }
  split; [apply Array_sort_perm|]. split.
  - apply Array_sort_sorted with (dom := fun p => isoDate (x p) = true);
      [ | | |exact Hdom].
    + intros a b Ha Hb Hle. unfold dateLe, String.leb, byDate in *.
      rewrite <- (localeCompare_iso _ _ Ha Hb).
      destruct (Z.compare_spec (localeCompare (x a) (x b)) 0); [reflexivity..|lia].
    + intros a b Ha Hb Hgt. unfold dateLe, String.leb, byDate in *.
      rewrite String.compare_antisym, <- (localeCompare_iso _ _ Ha Hb).
      destruct (Z.compare_spec (localeCompare (x a) (x b)) 0); [lia..|reflexivity].
    + intros a b c. unfold dateLe. apply string_leb_trans.
  - intros d. apply Array_sort_stable.
    intros a b Ha Hb Ka Kb. unfold sameDate in Ka, Kb.
    apply String.eqb_eq in Ka, Kb. rewrite Forall_forall in Hdom.
    assert (Hab := localeCompare_iso _ _ (Hdom a Ha) (Hdom b Hb)).
    rewrite Ka, Kb, string_compare_refl in Hab. unfold byDate.
    rewrite Ka, Kb. apply Z.compare_eq in Hab. lia.
Qed.

(** C1 (as amended).  With zero-padded dates, every series that the
    trends chart receives is the series of one package of the snapshot:
    exactly the points of its [overall] facet whose category is absent,
    [null], the empty string or [without_mirrors], as (date, downloads)
    pairs, in non-decreasing lexicographic date order, the points of one
    date all kept and in their original order; and every package with such
    a point has its series in the chart. *)
Theorem trends_series_sorted_stable (packages : Js.obj PackageStats) :
  isoDates packages = true ->
  (forall ds, In ds (fst (trends COLORS localeCompare packages)) ->
     exists pkgData,
       In (Dataset.label ds, pkgData) packages
       /\ seriesOf falsyOrWithoutMirrors (Dataset.data ds) (overallData pkgData))
  /\ (forall pkgName pkgData,
        In (pkgName, pkgData) packages ->
        filter falsyOrWithoutMirrors (overallData pkgData) <> [] ->
        exists ds,
          In ds (fst (trends COLORS localeCompare packages))
          /\ Dataset.label ds = pkgName
          /\ seriesOf falsyOrWithoutMirrors (Dataset.data ds) (overallData pkgData)).
Proof.
  intros Hiso. unfold isoDates in Hiso. rewrite forallb_forall in Hiso.
  unfold trends, Js.forEach. split.
  - intros ds Hds. apply forEach_datasets_sound in Hds.
    destruct Hds as [[]|[pkgData [Hin [Hdata _]]]].
    apply (proj1 (Object_entries_In _ _)) in Hin.
    exists pkgData. split; [exact Hin|]. rewrite Hdata.
    apply dataPoints_seriesOf. exact (Hiso _ Hin).
  - intros pkgName pkgData Hin Hne.
    destruct (forEach_datasets_complete COLORS localeCompare
                (Js.Object_entries packages) 0 [] [] pkgName pkgData)
      as [ds [Hds [Hlabel Hdata]]].
    + exact (proj2 (Object_entries_In _ _) Hin).
    + now rewrite dataPoints_nil.
    + exists ds. split; [exact Hds|]. split; [exact Hlabel|]. rewrite Hdata.
      apply dataPoints_seriesOf. exact (Hiso _ Hin).
Qed.
End TimeSeriesOrder.

Lemma codeUnitCompare_iso (a b : string) :
  isoDate a = true -> isoDate b = true ->
  (codeUnitCompare a b ?= 0) = String.compare a b.
Proof. intros _ _. apply codeUnitCompare_sign. Qed.

Lemma trends_series_sorted_stable_witness :
  isoDates threeDays = true
  /\ (forall ds, In ds (fst (trends COLORS_theme codeUnitCompare threeDays)) ->
        exists pkgData,
          In (Dataset.label ds, pkgData) threeDays
          /\ seriesOf falsyOrWithoutMirrors (Dataset.data ds) (overallData pkgData)).
Proof.
  split; [reflexivity|].
  apply (trends_series_sorted_stable COLORS_theme codeUnitCompare codeUnitCompare_iso threeDays).
  reflexivity.
Defined.

(** The scenario of the specification: the mirrored point is dropped and
    the other two come out in date order. *)
Example trends_threeDays :
  map Dataset.data (fst (trends COLORS_theme codeUnitCompare threeDays))
  = [ [ mkPoint "2025-01-01" 2; mkPoint "2025-01-02" 5 ] ].
Proof. reflexivity. Qed.

(** C1 as stated fails: a point whose category is the empty string is
    neither without category nor [without_mirrors], and it is in the series. *)
Lemma trends_series_keeps_empty_category :
  isoDates emptyCategoryDay = true
  /\ ~ (forall ds, In ds (fst (trends COLORS_theme codeUnitCompare emptyCategoryDay)) ->
          exists pkgData,
            In (Dataset.label ds, pkgData) emptyCategoryDay
            /\ seriesOf absentOrWithoutMirrors (Dataset.data ds) (overallData pkgData)).
Proof.
  split; [reflexivity|]. intros Hclaim.
  destruct (Hclaim _ (or_introl eq_refl)) as [pkgData [[Heq|[]] [Hperm _]]].
  inversion Heq; subst pkgData. simpl in Hperm.
  apply Permutation_length in Hperm. discriminate.
Qed.

Lemma keys_NoDup_inj {V : Type} (o : Js.obj V) (k : string) (v v' : V) :
  NoDup (map fst o) -> In (k, v) o -> In (k, v') o -> v = v'.
Proof.
  intros Hnd Hv Hv'.
  apply (get_In o k v Hnd) in Hv. apply (get_In o k v' Hnd) in Hv'. congruence.
Qed.

(** C6 (as amended).  A package of the snapshot whose [overall] facet is
    missing or empty, or has no point whose category is absent, [null], the
    empty string or [without_mirrors], gets no dataset: its name is not among
    the labels of the trends chart. *)
Theorem trends_omits_package_without_points
    (COLORS : list string) (localeCompare : string -> string -> Z)
    (packages : Js.obj PackageStats) (pkgName : string) (pkgData : PackageStats) :
  NoDup (map fst packages) ->
  In (pkgName, pkgData) packages ->
  overall pkgData = None
  \/ overallData pkgData = []
  \/ filter falsyOrWithoutMirrors (overallData pkgData) = [] ->
  ~ In pkgName (map Dataset.label (fst (trends COLORS localeCompare packages))).
Proof.
  intros Hnd Hin Hempty Hlabel.
  assert (Hnone : filter falsyOrWithoutMirrors (overallData pkgData) = []).
  { destruct Hempty as [H|[H|H]]; [|now rewrite H|exact H].
    unfold overallData. now rewrite H. }
  apply in_map_iff in Hlabel. destruct Hlabel as [ds [Hname Hds]].
  unfold trends, Js.forEach in Hds. apply forEach_datasets_sound in Hds.
  destruct Hds as [[]|[pkgData' [Hin' [Hdata Hne]]]].
  apply (proj1 (Object_entries_In _ _)) in Hin'. rewrite Hname in Hin'.
  rewrite (keys_NoDup_inj packages pkgName pkgData' pkgData Hnd Hin' Hin) in Hdata.
  apply Hne. rewrite Hdata. now apply dataPoints_nil.
Qed.

Lemma trends_omits_package_without_points_witness :
  ~ In "pkgA" (map Dataset.label (fst (trends COLORS_theme codeUnitCompare mirroredAndOrganic))).
Proof.
  apply (trends_omits_package_without_points COLORS_theme codeUnitCompare
           mirroredAndOrganic "pkgA" mirroredOnlyPackage).
  - repeat constructor; simpl; intuition discriminate.
  - left. reflexivity.
  - right. right. reflexivity.
Defined.

(** C6 as stated fails: the only point of the package has the empty string
    as category, so no point is without category or [without_mirrors], and
    the package is in the chart all the same. *)
Lemma trends_keeps_package_with_empty_category :
  ~ (NoDup (map fst emptyCategoryDay) ->
     In ("pkgA", emptyCategoryPackage) emptyCategoryDay ->
     filter absentOrWithoutMirrors (overallData emptyCategoryPackage) = [] ->
     ~ In "pkgA" (map Dataset.label (fst (trends COLORS_theme codeUnitCompare emptyCategoryDay)))).
Proof.
  intros Hclaim. apply Hclaim.
  - repeat constructor; simpl; intuition.
  - now left.
  - reflexivity.
  - now left.
Qed.

(** C7 (as amended).  [allDates] holds no date twice, and a date is in it
    exactly when some package has an [overall] point of that date whose
    category is absent, [null], the empty string or [without_mirrors]. *)
Theorem allDates_membership
    (COLORS : list string) (localeCompare : string -> string -> Z)
    (packages : Js.obj PackageStats) :
  NoDup (snd (trends COLORS localeCompare packages))
  /\ forall d,
       In d (snd (trends COLORS localeCompare packages))
       <-> exists pkgName pkgData point,
             In (pkgName, pkgData) packages
             /\ In point (overallData pkgData)
             /\ falsyOrWithoutMirrors point = true
             /\ DailyPoint.date point = d.
Proof.
  unfold trends, Js.forEach. split.
  - apply forEach_allDates_NoDup. constructor.
  - intros d. rewrite forEach_allDates. split.
    + intros [[]|[n [pk [pt [Hin H]]]]].
      exists n, pk, pt. split; [|exact H].
      exact (proj1 (Object_entries_In _ _) Hin).
    + intros [n [pk [pt [Hin H]]]]. right.
      exists n, pk, pt. split; [|exact H].
      exact (proj2 (Object_entries_In _ _) Hin).
Qed.

(** C7 as stated fails: the date of a point whose category is the empty
    string is in [allDates], and no point of that date is without category
    or [without_mirrors]. *)
Lemma allDates_has_date_of_empty_category :
  ~ (forall d,
       In d (snd (trends COLORS_theme codeUnitCompare emptyCategoryDay))
       <-> exists pkgName pkgData point,
             In (pkgName, pkgData) emptyCategoryDay
             /\ In point (overallData pkgData)
             /\ absentOrWithoutMirrors point = true
             /\ DailyPoint.date point = d).
Proof.
  intros Hclaim.
  destruct (proj1 (Hclaim "2025-01-01") (or_introl eq_refl))
    as [n [pk [pt [[Heq|[]] [Hpt [Hkeep _]]]]]].
  inversion Heq; subst. destruct Hpt as [<-|[]]. discriminate.
Qed.

(* ================================================================== *)
(** * The categorical totals (interpreter versions, operating systems) *)
(* ================================================================== *)

Lemma sumZ_app (l1 l2 : list Z) : sumZ (l1 ++ l2)%list = sumZ l1 + sumZ l2.
Proof.
  induction l1 as [|a l1 IH]; simpl; [reflexivity|]. rewrite IH. lia.
Qed.

Lemma fold_left_flat_map {S A B : Type} (f : S -> B -> S) (g : A -> list B)
    (l : list A) (s : S) :
  fold_left (fun acc a => fold_left f (g a) acc) l s = fold_left f (flat_map g l) s.
Proof.
  revert s. induction l as [|a l IH]; intros s; simpl; [reflexivity|].
  now rewrite fold_left_app, IH.
Qed.

Lemma versionTotals_fold (packages : Js.obj PackageStats) :
  versionTotals packages = fold_left addItem (facetItems python_versions packages) [].
Proof. unfold versionTotals, facetItems. apply fold_left_flat_map. Qed.

Lemma systemTotals_fold (packages : Js.obj PackageStats) :
  systemTotals packages = fold_left addItem (facetItems system packages) [].
Proof. unfold systemTotals, facetItems. apply fold_left_flat_map. Qed.

Lemma existsb_false_filter {A : Type} (f : A -> bool) (l : list A) :
  existsb f l = false -> filter f l = [].
Proof.
  induction l as [|a l IH]; simpl; [reflexivity|].
  destruct (f a); simpl; [discriminate|exact IH].
Qed.

(** ** Sums of doubles *)

Section Doubles.

Lemma pow53_lt_pow1024 : 2 ^ 53 < 2 ^ 1024.
Proof. apply Z.pow_lt_mono_r; lia. Qed.

(** Below [2^53] in magnitude every integer is a double. *)
Lemma round53_exact (z : Z) : Z.abs z < 2 ^ 53 -> Js.round53 z = z.
Proof.
  intros Hz. unfold Js.round53.
  destruct (Z.ltb_spec (Z.abs z) (2 ^ 53)) as [_|Hge]; [reflexivity|].
  exfalso. apply (Z.lt_irrefl (2 ^ 53)). eapply Z.le_lt_trans; eassumption.
Qed.

Lemma overflow_exact (z : Z) : Z.abs z < 2 ^ 53 -> Js.overflow z = Js.Finite z.
Proof.
  intros Hz. assert (Hbig := pow53_lt_pow1024).
  assert (Hlt : Z.abs z < 2 ^ 1024) by (eapply Z.lt_trans; eassumption).
  unfold Js.overflow. generalize dependent (2 ^ 1024). intros big _ Hlt.
  destruct (Z.leb_spec big z) as [Hle|_]; [lia|].
  destruct (Z.leb_spec z (- big)) as [Hle|_]; [lia|reflexivity].
Qed.

Lemma add_exact (z d : Z) :
  Z.abs (z + d) < 2 ^ 53 -> Js.add (Js.Finite z) d = Js.Finite (z + d).
Proof.
  intros Hz. simpl. rewrite (round53_exact _ Hz). now apply overflow_exact.
Qed.

Lemma sumZ_abs (ds : list Z) : Z.abs (sumZ ds) <= sumZ (map Z.abs ds).
Proof.
  induction ds as [|d ds IH]; simpl; lia.
Qed.

Lemma sumZ_abs_nonneg {A : Type} (f : A -> Z) (l : list A) :
  0 <= sumZ (map (fun a => Z.abs (f a)) l).
Proof.
  induction l as [|a l IH]; simpl; lia.
Qed.

Lemma sumZ_abs_filter {A : Type} (f : A -> Z) (p : A -> bool) (l : list A) :
  sumZ (map (fun a => Z.abs (f a)) (filter p l))
  <= sumZ (map (fun a => Z.abs (f a)) l).
Proof.
  induction l as [|a l IH]; simpl; [lia|].
  destruct (p a); simpl; lia.
Qed.

Lemma doubleSum_app (ds : list Z) (d : Z) :
  doubleSum (ds ++ [d]) = Js.add (doubleSum ds) d.
Proof. unfold doubleSum. now rewrite fold_left_app. Qed.

(** While the magnitudes add up to less than [2^53] the sum of the doubles
    is the sum of the integers. *)
Lemma doubleSum_exact (ds : list Z) :
  sumZ (map Z.abs ds) < 2 ^ 53 -> doubleSum ds = Js.Finite (sumZ ds).
Proof.
  induction ds as [|d ds IH] using rev_ind; intros Hsum; [reflexivity|].
  rewrite map_app, sumZ_app in Hsum. simpl in Hsum.
  assert (Habs := sumZ_abs ds).
  rewrite doubleSum_app, IH by lia.
  rewrite add_exact by lia.
  rewrite sumZ_app. simpl. f_equal. lia.
Qed.

(** Addition of doubles rounds: [2^53 + 1] is [2^53], and a tie goes to
    the even significand. *)
Example doubleSum_rounds :
  doubleSum [ 9007199254740992; 1 ] = Js.Finite 9007199254740992
  /\ Js.add (Js.Finite 9007199254740994) 1 = Js.Finite 9007199254740996
  /\ Js.add (Js.Finite 9007199254740992) 3 = Js.Finite 9007199254740996
  /\ Js.add (Js.Finite (- 9007199254740992)) (- 1) = Js.Finite (- 9007199254740992).
Proof. repeat split; vm_compute; reflexivity. Qed.

(** The order of the additions shows in the sum. *)
Example doubleSum_order :
  doubleSum [ 9007199254740992; 1; 1 ] = Js.Finite 9007199254740992
  /\ doubleSum [ 1; 1; 9007199254740992 ] = Js.Finite 9007199254740994.
Proof. split; vm_compute; reflexivity. Qed.

End Doubles.

(** ** The totals object *)

Section Totals.

Lemma addItem_uncounted (totals : Js.obj Js.value) (item : CategoryCount.t) :
  counted item = false -> addItem totals item = totals.
Proof. intros Hc. unfold addItem. now rewrite Hc. Qed.

(** The guard [item.category && item.category !== 'null'] leaves out the
    entries whose category is absent, [null], empty or the string [null]. *)
Lemma uncounted_guard (item : CategoryCount.t) :
  uncounted item = negb (counted item).
Proof.
  unfold uncounted, counted, truthy, strict_neq, strict_eq.
  destruct (CategoryCount.category item) as [| |s]; try reflexivity.
  now destruct (s =? "")%string, (s =? "null")%string.
Qed.

Lemma addItem_keys_NoDup (totals : Js.obj Js.value) (item : CategoryCount.t) :
  NoDup (map fst totals) -> NoDup (map fst (addItem totals item)).
Proof.
  intros Hnd. unfold addItem.
  destruct (counted item); [|exact Hnd].
  destruct (Js.get totals _); [now apply set_keys_NoDup|].
  destruct (Js.Object_prototype _) as [[|]|];
    [now apply set_keys_NoDup|exact Hnd|now apply set_keys_NoDup].
Qed.

(** One step of the aggregation, read at [key]. *)
Lemma addItem_get (totals : Js.obj Js.value) (item : CategoryCount.t) (key : string) :
  counted item = true ->
  Js.get (addItem totals item) key
  = if (key =? categoryKey item)%string
    then match Js.get totals key with
         | Some current => Some (Js.or0_plus current (downloadsOf item))
         | None => totalOf key [ downloadsOf item ]
         end
    else Js.get totals key.
Proof.
  intros Hc. unfold addItem, categoryKey, totalOf. rewrite Hc, num_or_zero.
  change (orZero (CategoryCount.downloads item)) with (downloadsOf item).
  set (key0 := propertyKey (CategoryCount.category item)).
  destruct (String.eqb_spec key key0) as [->|Hk].
  - destruct (Js.get totals key0) as [current|] eqn:Hget.
    + now rewrite get_set, String.eqb_refl.
    + destruct (Js.Object_prototype key0) as [[|]|].
      * now rewrite get_set, String.eqb_refl.
      * exact Hget.
      * now rewrite get_set, String.eqb_refl.
  - apply String.eqb_neq in Hk.
    destruct (Js.get totals key0) as [current|].
    + now rewrite get_set, Hk.
    + destruct (Js.Object_prototype key0) as [[|]|]; rewrite ?get_set, ?Hk; reflexivity.
Qed.

Lemma totalOf_app (key : string) (ds : list Z) (d : Z) (current : Js.value) :
  totalOf key ds = Some current ->
  totalOf key (ds ++ [d]) = Some (Js.or0_plus current d).
Proof.
  unfold totalOf. destruct (Js.Object_prototype key) as [[|]|]; intros Heq;
    inversion Heq; subst; simpl; [reflexivity|].
  now rewrite doubleSum_app.
Qed.

Lemma totalOf_None (key : string) (ds ds' : list Z) :
  totalOf key ds = None -> totalOf key ds' = None.
Proof.
  unfold totalOf. now destruct (Js.Object_prototype key) as [[|]|].
Qed.

(** What the totals object holds once [items] have been added to the
    empty object: its own keys are distinct, and under [key] it holds what
    the counts added under [key] make, in the order of the entries. *)
Lemma totals_invariant (items : list CategoryCount.t) :
  NoDup (map fst (fold_left addItem items []))
  /\ forall key,
       Js.get (fold_left addItem items []) key
       = if existsb (addsTo key) items
         then totalOf key (map downloadsOf (filter (addsTo key) items))
         else None.
Proof.
  induction items as [|item items [IHnd IHget]] using rev_ind.
  - split; [constructor|reflexivity].
  - rewrite fold_left_app. simpl. split; [now apply addItem_keys_NoDup|].
    intros key. rewrite existsb_app, filter_app, map_app. simpl.
    unfold addsTo at 2 4. fold (categoryKey item).
    rewrite (String.eqb_sym (categoryKey item) key).
    destruct (counted item) eqn:Hc; simpl.
    + rewrite addItem_get by exact Hc.
      destruct (key =? categoryKey item)%string; simpl.
      * rewrite orb_true_r, IHget.
        destruct (existsb (addsTo key) items) eqn:E.
        -- destruct (totalOf key (map downloadsOf (filter (addsTo key) items)))
             as [current|] eqn:Htotal.
           ++ symmetry. now apply totalOf_app.
           ++ rewrite (totalOf_None _ _ [downloadsOf item] Htotal).
              symmetry. exact (totalOf_None _ _ _ Htotal).
        -- now rewrite (existsb_false_filter _ _ E).
      * now rewrite orb_false_r, app_nil_r, IHget.
    + rewrite addItem_uncounted by exact Hc.
      now rewrite orb_false_r, app_nil_r, IHget.
Qed.

Lemma totals_keys_NoDup (items : list CategoryCount.t) :
  NoDup (map fst (fold_left addItem items [])).
Proof. apply totals_invariant. Qed.

Lemma addsTo_category (key : string) (item : CategoryCount.t) :
  addsTo key item = true
  <-> CategoryCount.category item = CategoryStr key /\ key <> "" /\ key <> "null".
Proof.
  unfold addsTo, counted, truthy, strict_neq, strict_eq, propertyKey.
  destruct (CategoryCount.category item) as [| |s]; simpl;
    try (split; [discriminate|intros [? _]; discriminate]).
  rewrite !andb_true_iff, !negb_true_iff, !String.eqb_neq, String.eqb_eq.
  split.
  - intros [[Hne Hnn] ->]. auto.
  - intros [Heq [Hne Hnn]]. inversion Heq; subst. auto.
Qed.

Lemma addsTo_counted (key : string) (item : CategoryCount.t) :
  addsTo key item = true <-> counted item = true /\ categoryKey item = key.
Proof.
  unfold addsTo, categoryKey. now rewrite andb_true_iff, String.eqb_eq.
Qed.

Lemma counted_category (item : CategoryCount.t) :
  counted item = true ->
  CategoryCount.category item = CategoryStr (categoryKey item).
Proof.
  unfold counted, categoryKey, truthy, propertyKey.
  destruct (CategoryCount.category item) as [| |s]; simpl; try discriminate.
  reflexivity.
Qed.

(** The entries of the totals object. *)
Lemma totals_entries (items : list CategoryCount.t) (key : string) (total : Js.value) :
  In (key, total) (fold_left addItem items [])
  <-> existsb (addsTo key) items = true
      /\ totalOf key (map downloadsOf (filter (addsTo key) items)) = Some total.
Proof.
  destruct (totals_invariant items) as [Hnd Hget].
  rewrite (get_In _ key total Hnd), Hget.
  destruct (existsb (addsTo key) items); split.
  - intros H. now split.
  - now intros [_ H].
  - discriminate.
  - intros [H _]. discriminate.
Qed.

(** Every own key is the category of a counted entry. *)
Lemma totals_key_item (items : list CategoryCount.t) (key : string) (total : Js.value) :
  In (key, total) (fold_left addItem items []) ->
  exists item,
    In item items /\ CategoryCount.category item = CategoryStr key
    /\ key <> "" /\ key <> "null".
Proof.
  intros Hin. apply (proj1 (totals_entries _ _ _)) in Hin. destruct Hin as [E _].
  apply existsb_exists in E. destruct E as [item [Hitem Hadds]].
  apply (proj1 (addsTo_category key item)) in Hadds.
  exists item. tauto.
Qed.



Lemma ownNames_key (items : list CategoryCount.t) (key : string) :
  ownNames items = true ->
  existsb (addsTo key) items = true ->
  Js.Object_prototype key = None.
Proof.
  unfold ownNames. rewrite forallb_forall. intros Hown E.
  apply existsb_exists in E. destruct E as [item [Hitem Hadds]].
  apply (proj1 (addsTo_counted key item)) in Hadds. destruct Hadds as [Hc <-].
  specialize (Hown item (proj2 (filter_In _ _ _) (conj Hitem Hc))).
  unfold ownName in Hown. now destruct (Js.Object_prototype (categoryKey item)).
Qed.

Lemma group_magnitude (items : list CategoryCount.t) (key : string) :
  sumZ (map Z.abs (map downloadsOf (filter (addsTo key) items))) <= magnitude items.
Proof.
  unfold magnitude. rewrite map_map.
  assert (Hsplit : filter (addsTo key) items
                   = filter (fun item => (categoryKey item =? key)%string)
                       (filter counted items)).
  { induction items as [|item items IH]; simpl; [reflexivity|].
    unfold addsTo at 1. fold (categoryKey item).
    destruct (counted item); simpl; [|exact IH].
    destruct (categoryKey item =? key)%string; now rewrite IH. }
  rewrite Hsplit. apply sumZ_abs_filter.
Qed.

(** The entries of the totals object when every key is an own name and
    the sums are exact: the categories that pass the guard, each with the
    sum of its downloads. *)
Lemma totals_entries_exact (items : list CategoryCount.t) (key : string)
    (total : Js.value) :
  ownNames items = true -> exactRange items = true ->
  (In (key, total) (fold_left addItem items [])
   <-> existsb (addsTo key) items = true
       /\ total = Js.Number (Js.Finite (sumZ (map downloadsOf (filter (addsTo key) items))))).
Proof.
  intros Hown Hexact. rewrite totals_entries.
  unfold exactRange in Hexact. apply Z.ltb_lt in Hexact.
  assert (Hgroup := group_magnitude items key).
  split; intros [E Htotal]; (split; [exact E|]).
  - unfold totalOf in Htotal. rewrite (ownNames_key items key Hown E) in Htotal.
    rewrite doubleSum_exact in Htotal by lia. congruence.
  - unfold totalOf. rewrite (ownNames_key items key Hown E).
    rewrite doubleSum_exact by lia. congruence.
Qed.

Lemma totals_numbers (items : list CategoryCount.t) :
  ownNames items = true ->
  Forall isNumber (fold_left addItem items []).
Proof.
  intros Hown. rewrite Forall_forall. intros [key total] Hin.
  apply (proj1 (totals_entries _ _ _)) in Hin. destruct Hin as [E Htotal].
  unfold totalOf in Htotal. rewrite (ownNames_key items key Hown E) in Htotal.
  inversion Htotal. now eexists.
Qed.

End Totals.
Section ValueMaps.
Context {V W : Type}.
Variable g : V -> W.

Lemma sort_insert_map {A B : Type} (f : A -> B)
    (cmpA : A -> A -> Z) (cmpB : B -> B -> Z) (a : A) (l : list A) :
  (forall a b, cmpB (f a) (f b) = cmpA a b) ->
  Js.sort_insert cmpB (f a) (map f l) = map f (Js.sort_insert cmpA a l).
Proof.
  intros Hcmp. induction l as [|b l IH]; simpl; [reflexivity|].
  rewrite Hcmp. destruct (cmpA a b <=? 0); simpl; [reflexivity|].
  now rewrite IH.
Qed.

Lemma Array_sort_map {A B : Type} (f : A -> B)
    (cmpA : A -> A -> Z) (cmpB : B -> B -> Z) (l : list A) :
  (forall a b, cmpB (f a) (f b) = cmpA a b) ->
  Js.Array_sort cmpB (map f l) = map f (Js.Array_sort cmpA l).
Proof.
  intros Hcmp. induction l as [|a l IH]; simpl; [reflexivity|].
  rewrite IH. now apply sort_insert_map.
Qed.

Lemma filter_map_comm {A B : Type} (f : A -> B) (p : B -> bool) (l : list A) :
  filter p (map f l) = map f (filter (fun a => p (f a)) l).
Proof.
  induction l as [|a l IH]; simpl; [reflexivity|].
  destruct (p (f a)); simpl; now rewrite IH.
Qed.

Lemma Object_entries_map_values (o : Js.obj V) :
  Js.Object_entries (map_values g o) = map_values g (Js.Object_entries o).
Proof.
  unfold Js.Object_entries, map_values.
  rewrite map_app, !filter_map_comm. f_equal.
  apply Array_sort_map. reflexivity.
Qed.

Lemma Object_values_map_values (o : Js.obj V) :
  Js.Object_values (map_values g o) = map g (Js.Object_values o).
Proof.
  unfold Js.Object_values. rewrite Object_entries_map_values.
  unfold map_values. rewrite !map_map. reflexivity.
Qed.
End ValueMaps.

Section Noninterference.
Variable drop : CategoryCount.t -> bool.
Hypothesis drop_uncounted : forall item, drop item = true -> counted item = false.

Lemma addItem_dropped (items : list CategoryCount.t) :
  forall totals,
    fold_left addItem (filter (fun item => negb (drop item)) items) totals
    = fold_left addItem items totals.
Proof.
  induction items as [|item items IH]; intros totals; simpl; [reflexivity|].
  destruct (drop item) eqn:Hd; simpl.
  - rewrite IH. now rewrite (addItem_uncounted _ _ (drop_uncounted _ Hd)).
  - apply IH.
Qed.

Lemma data_or_without_items (facet : option (Envelope (list CategoryCount.t))) :
  data_or (without_items drop facet) []
  = filter (fun item => negb (drop item)) (data_or facet []).
Proof.
  destruct facet as [[[items|]]|]; reflexivity.
Qed.

Lemma flat_map_filter {A B : Type} (h : A -> list B) (p : B -> bool) (l : list A) :
  flat_map (fun a => filter p (h a)) l = filter p (flat_map h l).
Proof.
  induction l as [|a l IH]; simpl; [reflexivity|].
  now rewrite filter_app, IH.
Qed.

Lemma flat_map_map {A B C : Type} (h : B -> list C) (f : A -> B) (l : list A) :
  flat_map h (map f l) = flat_map (fun a => h (f a)) l.
Proof.
  induction l as [|a l IH]; simpl; [reflexivity|]. now rewrite IH.
Qed.

Lemma facetItems_without
    (facet : PackageStats -> option (Envelope (list CategoryCount.t)))
    (packages : Js.obj PackageStats) :
  (forall pkgData,
     facet (mkPackageStats (recent pkgData) (overall pkgData)
              (without_items drop (python_versions pkgData))
              (without_items drop (system pkgData)))
     = without_items drop (facet pkgData)) ->
  facetItems facet (without_entries drop packages)
  = filter (fun item => negb (drop item)) (facetItems facet packages).
Proof.
  intros Hfacet. unfold facetItems, without_entries.
  rewrite Object_values_map_values, flat_map_map, <- flat_map_filter.
  apply flat_map_ext. intros pkgData.
  rewrite Hfacet. apply data_or_without_items.
Qed.

Lemma versionTotals_without (packages : Js.obj PackageStats) :
  versionTotals (without_entries drop packages) = versionTotals packages.
Proof.
  rewrite !versionTotals_fold, facetItems_without by reflexivity.
  apply addItem_dropped.
Qed.

Lemma systemTotals_without (packages : Js.obj PackageStats) :
  systemTotals (without_entries drop packages) = systemTotals packages.
Proof.
  rewrite !systemTotals_fold, facetItems_without by reflexivity.
  apply addItem_dropped.
Qed.
End Noninterference.

Section Ranking.

Lemma numberLeb_trans (a b c : Js.number) :
  numberLeb a b = true -> numberLeb b c = true -> numberLeb a c = true.
Proof.
  destruct a, b, c; simpl; try discriminate; try reflexivity.
  rewrite !Z.leb_le. lia.
Qed.

Lemma nonIncreasing_trans (a b c : string * Js.value) :
  nonIncreasing a b -> nonIncreasing b c -> nonIncreasing a c.
Proof.
  unfold nonIncreasing.
  destruct (snd a) as [x|], (snd b) as [y|], (snd c) as [z|]; try contradiction.
  intros Hyx Hzy. eapply numberLeb_trans; eassumption.
Qed.

(** On numbers the comparator [b[1] - a[1]] orders by total. *)
Lemma byTotalDesc_le (a b : string * Js.value) :
  isNumber a -> isNumber b -> byTotalDesc a b <= 0 -> nonIncreasing a b.
Proof.
  unfold isNumber, byTotalDesc, nonIncreasing. intros [x ->] [y ->].
  unfold Js.minus_sign, Js.ToNumber, numberLeb.
  destruct x as [x| |], y as [y| |]; intros Hsgn; try reflexivity; lia.
Qed.

Lemma byTotalDesc_gt (a b : string * Js.value) :
  isNumber a -> isNumber b -> 0 < byTotalDesc a b -> nonIncreasing b a.
Proof.
  unfold isNumber, byTotalDesc, nonIncreasing. intros [x ->] [y ->].
  unfold Js.minus_sign, Js.ToNumber, numberLeb.
  destruct x as [x| |], y as [y| |]; intros Hsgn; try reflexivity; lia.
Qed.

Lemma In_firstn {A : Type} (n : nat) (l : list A) (a : A) :
  In a (firstn n l) -> In a l.
Proof.
  intros H. rewrite <- (firstn_skipn n l). apply in_or_app. now left.
Qed.


Lemma ranked_sorted (entries : list (string * Js.value)) :
  Forall isNumber entries ->
  StronglySorted nonIncreasing (Js.Array_sort byTotalDesc entries).
Proof.
  apply Array_sort_sorted.
  - exact byTotalDesc_le.
  - exact byTotalDesc_gt.
  - exact nonIncreasing_trans.
Qed.

Lemma ranked_In (totals : Js.obj Js.value) (e : string * Js.value) :
  In e (Js.Array_sort byTotalDesc (Js.Object_entries totals)) <-> In e totals.
Proof. rewrite Array_sort_In. apply Object_entries_In. Qed.

Lemma ranked_perm (totals : Js.obj Js.value) :
  Permutation (Js.Array_sort byTotalDesc (Js.Object_entries totals)) totals.
Proof.
  eapply perm_trans; [apply Array_sort_perm|apply Object_entries_perm].
Qed.

(** The ranking of a totals object whose values are numbers. *)
Lemma totals_ranked_sorted (items : list CategoryCount.t) :
  ownNames items = true ->
  StronglySorted nonIncreasing
    (Js.Array_sort byTotalDesc (Js.Object_entries (fold_left addItem items []))).
Proof.
  intros Hown. apply ranked_sorted.
  assert (Hnum := totals_numbers items Hown).
  rewrite Forall_forall in *. intros e He. apply Hnum.
  exact (proj1 (Object_entries_In _ _) He).
Qed.

End Ranking.

Section Sums.






End Sums.


(** The scenario of the specification: the two packages add up under
    [3.10], and the [null] bucket is gone. *)
Example sortedVersions_twoPackages :
  sortedVersions twoPackages
  = [ ("3.10", Js.Number (Js.Finite 100)); ("3.9", Js.Number (Js.Finite 50)) ].
Proof. vm_compute. reflexivity. Qed.



(** The totals of the samples. *)
Example systemTotals_samples :
  systemTotals inheritedName
  = [ ("constructor", Js.Text "constructor" [5]); ("Linux", Js.Number (Js.Finite 7)) ]
  /\ sortedSystems largeCounts = [ ("Linux", Js.Number (Js.Finite 9007199254740992)) ]
  /\ sortedSystems emptyCategorySystem = []
  /\ sortedSystems protoCategory = [].
Proof. repeat split; vm_compute; reflexivity. Qed.




(** A total that is a text is in no order with a number: with a category
    named [constructor] the list is not ordered by total at all. *)
Example inherited_name_not_ranked :
  ~ StronglySorted nonIncreasing (sortedSystems inheritedName).
Proof.
  intros Hs.
  assert (Heq : sortedSystems inheritedName
                = [ ("constructor", Js.Text "constructor" [5]);
                    ("Linux", Js.Number (Js.Finite 7)) ])
    by (vm_compute; reflexivity).
  rewrite Heq in Hs.
  inversion Hs as [|? ? _ Hall]; subst.
  inversion Hall as [|? ? Hge _]; subst. exact Hge.
Qed.

Section Listed.

Lemma Object_prototype_accessor (key : string) :
  Js.Object_prototype key = Some Js.Accessor <-> key = "__proto__".
Proof.
  unfold Js.Object_prototype.
  destruct (String.eqb_spec key "__proto__") as [->|Hk].
  - split; reflexivity.
  - split; [|contradiction].
    destruct (existsb _ _); discriminate.
Qed.

(** A key has a total unless it is [__proto__]. *)
Lemma totalOf_defined (key : string) (ds : list Z) :
  totalOf key ds <> None <-> key <> "__proto__".
Proof.
  rewrite <- Object_prototype_accessor. unfold totalOf.
  destruct (Js.Object_prototype key) as [[|]|]; split; congruence.
Qed.

Lemma totals_listed (items : list CategoryCount.t) :
  listsEveryCategory notListed items (fold_left addItem items []).
Proof.
  intros item key Hitem Hlisted Hcat.
  unfold notListed in Hlisted. apply orb_false_elim in Hlisted.
  destruct Hlisted as [Hun Hproto].
  assert (Hc : counted item = true).
  { rewrite uncounted_guard in Hun. now destruct (counted item). }
  assert (Hkey : categoryKey item = key).
  { unfold categoryKey. now rewrite Hcat. }
  rewrite Hkey in Hproto. apply String.eqb_neq in Hproto.
  assert (E : existsb (addsTo key) items = true).
  { apply existsb_exists. exists item. split; [exact Hitem|].
    now apply (proj2 (addsTo_counted key item)). }
  destruct (totalOf key (map downloadsOf (filter (addsTo key) items)))
    as [total|] eqn:Htotal.
  - exists total. now apply (proj2 (totals_entries items key total)).
  - exfalso. exact (proj2 (totalOf_defined key _) Hproto Htotal).
Qed.

Lemma totals_only_listed (items : list CategoryCount.t) (key : string)
    (total : Js.value) :
  In (key, total) (fold_left addItem items []) ->
  exists item,
    In item items /\ notListed item = false
    /\ CategoryCount.category item = CategoryStr key.
Proof.
  intros Hin. apply (proj1 (totals_entries _ _ _)) in Hin. destruct Hin as [E Htotal].
  apply existsb_exists in E. destruct E as [item [Hitem Hadds]].
  apply (proj1 (addsTo_counted key item)) in Hadds. destruct Hadds as [Hc Hkey].
  exists item. split; [exact Hitem|]. split.
  - unfold notListed. rewrite uncounted_guard, Hc, Hkey. simpl.
    apply String.eqb_neq.
    apply (proj1 (totalOf_defined key (map downloadsOf (filter (addsTo key) items)))).
    congruence.
  - rewrite <- Hkey. now apply counted_category.
Qed.

End Listed.



(* ================================================================== *)
(** * The recent window, number formatting and the loader *)
(* ================================================================== *)

(** C5.  The six numbers of a summary card are always there: each is the
    field of [recent.data] when present and zero otherwise; all six are zero
    for a package without a [recent] facet; and the snapshot whose [pkgA]
    has [last_day: 100, last_week: 700] alone gives 100, 700 and four zeros
    for [pkgA]. *)
Theorem recentWindow_defaults :
  (forall pkgData,
     let fields := data_or (recent pkgData) emptyRecent in
     recentWindow pkgData
     = mkRecentWindow
         (orZero (last_day fields)) (orZero (last_week fields))
         (orZero (last_month fields))
         (orZero (last_day_without_mirrors fields))
         (orZero (last_week_without_mirrors fields))
         (orZero (last_month_without_mirrors fields)))
  /\ (forall pkgData,
        recent pkgData = None ->
        recentWindow pkgData = mkRecentWindow 0 0 0 0 0 0)
  /\ map (fun entry => (fst entry, recentWindow (snd entry)))
         (Js.Object_entries [ ("pkgA", pkgA_recent) ])
     = [ ("pkgA", mkRecentWindow 100 700 0 0 0 0) ].
Proof.
  split; [|split].
  - intros pkgData fields. unfold recentWindow. fold fields.
    now rewrite !num_or_zero.
  - intros pkgData Hnone. unfold recentWindow. now rewrite Hnone.
  - reflexivity.
Qed.

(** The cards show these numbers through [formatNumber]: the zeros as [0],
    the others as the locale prints them. *)
Example card_pkgA (toLocaleString : Z -> string) :
  packageCard toLocaleString ("pkgA", pkgA_recent)
  = mkCard "pkgA" (toLocaleString 100) "0" (toLocaleString 700) "0" "0" "0".
Proof. reflexivity. Qed.

(** C9.  [formatNumber(0)] and [formatNumber(undefined)] are both the
    string [0], whatever the locale. *)
Theorem formatNumber_zero_undefined (toLocaleString : Z -> string) :
  formatNumber toLocaleString (Some 0) = "0"
  /\ formatNumber toLocaleString None = "0".
Proof. split; reflexivity. Qed.

Section Shapes.

Lemma arrayFacet_parsedFacet {T : Type} (facet : option (Envelope (list T))) :
  arrayFacet (parsedFacet facet) = facet.
Proof. destruct facet as [[[items|]]|]; reflexivity. Qed.

Lemma notArray_parsedFacet {T : Type} (facet : option (Envelope (list T))) :
  notArray (parsedFacet facet) = false.
Proof. destruct facet as [[[items|]]|]; reflexivity. Qed.

Lemma shapedPackage_parsedPackage (pkgData : PackageStats) :
  shapedPackage (parsedPackage pkgData) = pkgData.
Proof.
  destruct pkgData as [recentFacet overallFacet versionsFacet systemFacet].
  unfold shapedPackage, parsedPackage.
  cbn [parsed_recent parsed_overall parsed_python_versions parsed_system
       recent overall python_versions system].
  now rewrite !arrayFacet_parsedFacet.
Qed.

Lemma shapedPackages_parsed (packages : Js.obj PackageStats) :
  shapedPackages (map (fun entry => (fst entry, parsedPackage (snd entry))) packages)
  = packages.
Proof.
  unfold shapedPackages. rewrite map_map. rewrite <- (map_id packages) at 2.
  apply map_ext. intros [pkgName pkgData]. simpl.
  now rewrite shapedPackage_parsedPackage.
Qed.

Lemma existsb_none {A : Type} (f : A -> bool) (l : list A) :
  (forall a, In a l -> f a = false) -> existsb f l = false.
Proof.
  intros Hnone. induction l as [|a l IH]; simpl; [reflexivity|].
  rewrite (Hnone a (or_introl eq_refl)). apply IH.
  intros b Hb. apply Hnone. now right.
Qed.

(** No facet of a snapshot holds anything but an array. *)
Lemma parsed_arrays (bad : ParsedPackage -> bool) (packages : Js.obj PackageStats) :
  (forall pkgData, bad (parsedPackage pkgData) = false) ->
  existsb bad
    (Js.Object_values
       (map (fun entry => (fst entry, parsedPackage (snd entry))) packages))
  = false.
Proof.
  intros Hbad. apply existsb_none. intros pkgData Hin.
  apply (proj1 (Object_values_In _ _)) in Hin. destruct Hin as [pkgName Hin].
  apply in_map_iff in Hin. destruct Hin as [[pkgName' pkgData'] [Heq _]].
  inversion Heq; subst. apply Hbad.
Qed.

(** A render call on the packages of a snapshot returns. *)
Lemma renderCall_bodyOf {P : Type} (bad : ParsedPackage -> bool) (thrown : Thrown)
    (render : Js.obj PackageStats -> P -> P) (stats : Snapshot) (page : P) :
  (forall pkgData, bad (parsedPackage pkgData) = false) ->
  renderCall bad thrown render (body_packages (bodyOf stats)) page
  = inr (render (packages stats) page).
Proof.
  intros Hbad. unfold renderCall, bodyOf. cbn [body_packages].
  now rewrite (parsed_arrays bad _ Hbad), shapedPackages_parsed.
Qed.

Lemma overallNotArray_parsed (pkgData : PackageStats) :
  overallNotArray (parsedPackage pkgData) = false.
Proof. apply notArray_parsedFacet. Qed.

Lemma pythonNotArray_parsed (pkgData : PackageStats) :
  pythonNotArray (parsedPackage pkgData) = false.
Proof. apply notArray_parsedFacet. Qed.

Lemma systemNotArray_parsed (pkgData : PackageStats) :
  systemNotArray (parsedPackage pkgData) = false.
Proof. apply notArray_parsedFacet. Qed.

Lemma andThen_returns {P : Type} (call : Call P) (page page' : P) :
  call page = inr page' -> andThen call (page, None) = (page', None).
Proof. intros Hcall. unfold andThen. now rewrite Hcall. Qed.

End Shapes.



(** What the page holds after that load. *)
Example loadStats_versionsNotArray :
  let after :=
    loadStats COLORS_theme decimal (fun timestamp => timestamp) codeUnitCompare
      (fun thrown => "pythonData.forEach is not a function")
      (FetchResponse true 200 (inr versionsNotArray)) blankPage in
  statsData after = Some versionsNotArray
  /\ lastUpdated after = "Last updated: 2025-01-02T00:00:00Z"
  /\ summaryCards after
     = ErrorParagraph
         "Error loading statistics: pythonData.forEach is not a function. Please check the browser console for details."
  /\ map fst (charts after) = [ "trendsChart" ]
  /\ console after
     = [ ("Error loading stats:", TypeError (NotAFunction "pythonData.forEach")) ].
Proof. repeat split. Qed.

(* ================================================================== *)
(** * Falsy categories *)
(* ================================================================== *)

Section EmptyCategory.
Variable COLORS : list string.
Variable localeCompare : string -> string -> Z.

Lemma forEach_from_map {S E : Type} (step : S -> E -> nat -> S) (h : E -> E)
    (l : list E) :
  (forall s e index, step s (h e) index = step s e index) ->
  forall index s,
    Js.forEach_from step index (map h l) s = Js.forEach_from step index l s.
Proof.
  intros Hstep. induction l as [|e l IH]; intros index s; simpl; [reflexivity|].
  now rewrite Hstep, IH.
Qed.

Lemma emptyAsAbsent_organicOnly (d : DailyPoint.t) :
  organicOnly (emptyAsAbsent d) = organicOnly d.
Proof.
  unfold emptyAsAbsent, organicOnly.
  destruct (DailyPoint.category d) as [| |s] eqn:Hcat; rewrite ?Hcat; try reflexivity.
  destruct (String.eqb_spec s "") as [->|Hs]; [reflexivity|].
  now rewrite Hcat.
Qed.

Lemma emptyAsAbsent_toPoint (d : DailyPoint.t) :
  toPoint (emptyAsAbsent d) = toPoint d.
Proof.
  unfold emptyAsAbsent.
  destruct (DailyPoint.category d) as [| |s]; try reflexivity.
  now destruct (s =? "")%string.
Qed.

Lemma emptyAsAbsent_date (d : DailyPoint.t) :
  DailyPoint.date (emptyAsAbsent d) = DailyPoint.date d.
Proof.
  unfold emptyAsAbsent.
  destruct (DailyPoint.category d) as [| |s]; try reflexivity.
  now destruct (s =? "")%string.
Qed.

Lemma filter_emptyAsAbsent (points : list DailyPoint.t) :
  filter organicOnly (map emptyAsAbsent points)
  = map emptyAsAbsent (filter organicOnly points).
Proof.
  rewrite filter_map_comm. f_equal.
  apply filter_ext, emptyAsAbsent_organicOnly.
Qed.

Lemma trends_emptyAsAbsent (packages : Js.obj PackageStats) :
  trends COLORS localeCompare (with_points emptyAsAbsent packages)
  = trends COLORS localeCompare packages.
Proof.
  unfold trends, Js.forEach, with_points.
  rewrite Object_entries_map_values. unfold map_values.
  apply forEach_from_map.
  intros [datasets allDates] [pkgName pkgData] index. simpl.
  assert (Hdata :
    overallData
      (mkPackageStats (recent pkgData)
         (option_map
            (fun envelope =>
               mkEnvelope (option_map (map emptyAsAbsent) (data envelope)))
            (overall pkgData))
         (python_versions pkgData) (system pkgData))
    = map emptyAsAbsent (overallData pkgData)).
  { unfold overallData. simpl. destruct (overall pkgData) as [[[points|]]|]; reflexivity. }
  unfold dataPoints. rewrite Hdata, filter_emptyAsAbsent, !map_map.
  rewrite (map_ext _ _ emptyAsAbsent_toPoint), (map_ext _ _ emptyAsAbsent_date).
  reflexivity.
Qed.

Lemma point_in_series (packages : Js.obj PackageStats)
    (pkgName : string) (pkgData : PackageStats) (point : DailyPoint.t) :
  In (pkgName, pkgData) packages ->
  In point (overallData pkgData) ->
  organicOnly point = true ->
  exists ds,
    In ds (fst (trends COLORS localeCompare packages))
    /\ Dataset.label ds = pkgName
    /\ In (toPoint point) (Dataset.data ds).
Proof.
  intros Hin Hpoint Hkeep.
  assert (Hseries : In (toPoint point) (dataPoints localeCompare pkgData)).
  { unfold dataPoints. apply (proj2 (Array_sort_In _ _ _)).
    apply in_map, filter_In. auto. }
  destruct (forEach_datasets_complete COLORS localeCompare
              (Js.Object_entries packages) 0 [] [] pkgName pkgData)
    as [ds [Hds [Hlabel Hdata]]].
  - exact (proj2 (Object_entries_In _ _) Hin).
  - intros Hnil. rewrite Hnil in Hseries. destruct Hseries.
  - exists ds. split; [exact Hds|]. split; [exact Hlabel|]. now rewrite Hdata.
Qed.
End EmptyCategory.

(** C10.  A category that is falsy (absent, [null] or the empty string)
    keeps an entry out of both categorical charts: the ranked lists are the
    same when all such entries are taken out of the snapshot, and no list
    has the empty string as a category.  In the trends chart the empty
    string counts as no category: a daily point that carries it is in the
    series of its package, and the chart is the same when the field is
    removed from such points. *)
Theorem falsy_category_handling
    (COLORS : list string) (localeCompare : string -> string -> Z)
    (packages : Js.obj PackageStats) :
  sortedVersions (without_entries falsyCategory packages) = sortedVersions packages
  /\ sortedSystems (without_entries falsyCategory packages) = sortedSystems packages
  /\ (forall total,
        ~ In ("", total) (sortedVersions packages)
        /\ ~ In ("", total) (sortedSystems packages))
  /\ (forall pkgName pkgData point,
        In (pkgName, pkgData) packages ->
        In point (overallData pkgData) ->
        DailyPoint.category point = CategoryStr "" ->
        exists ds,
          In ds (fst (trends COLORS localeCompare packages))
          /\ Dataset.label ds = pkgName
          /\ In (toPoint point) (Dataset.data ds))
  /\ trends COLORS localeCompare (with_points emptyAsAbsent packages)
     = trends COLORS localeCompare packages.
Proof.
  assert (Hdrop : forall item, falsyCategory item = true -> counted item = false).
  { intros item. unfold falsyCategory, counted. intros H.
    apply negb_true_iff in H. now rewrite H. }
  split; [|split; [|split; [|split]]].
  - unfold sortedVersions. now rewrite (versionTotals_without _ Hdrop).
  - unfold sortedSystems. now rewrite (systemTotals_without _ Hdrop).
  - intros total. split; intros Hin.
    + unfold sortedVersions, Js.Array_slice0 in Hin. apply In_firstn in Hin.
      apply (proj1 (ranked_In _ _)) in Hin. rewrite versionTotals_fold in Hin.
      destruct (totals_key_item _ _ _ Hin) as [item [_ [_ [Hne _]]]]. now apply Hne.
    + unfold sortedSystems in Hin.
      apply (proj1 (ranked_In _ _)) in Hin. rewrite systemTotals_fold in Hin.
      destruct (totals_key_item _ _ _ Hin) as [item [_ [_ [Hne _]]]]. now apply Hne.
  - intros pkgName pkgData point Hin Hpoint Hcat.
    apply (point_in_series COLORS localeCompare packages pkgName pkgData point Hin Hpoint).
    unfold organicOnly. now rewrite Hcat.
  - apply trends_emptyAsAbsent.
Qed.

(** A snapshot where the empty category decides: the daily point shows in
    the trends chart, the category entries do not show in the ranking. *)
Example empty_category_effects :
  map Dataset.data (fst (trends COLORS_theme codeUnitCompare emptyCategoryDay))
  = [ [ mkPoint "2025-01-01" 1 ] ]
  /\ sortedSystems
       [ ("pkgA", onlySystem [ count "" 4; count "Linux" 7;
                               CategoryCount.mk CategoryNull (Some 9) ]) ]
     = [ ("Linux", Js.Number (Js.Finite 7)) ].
Proof. split; vm_compute; reflexivity. Qed.

(* ================================================================== *)
(** * Further properties of the trends chart *)
(* ================================================================== *)

Lemma existsb_filter_nil {A : Type} (f : A -> bool) (l : list A) :
  existsb f l = negb (match filter f l with [] => true | _ => false end).
Proof.
  induction l as [|a l IH]; simpl; [reflexivity|].
  destruct (f a); simpl; [reflexivity|exact IH].
Qed.

Section TrendsLayout.
Variable COLORS : list string.
Variable localeCompare : string -> string -> Z.

Lemma hasPoints_dataPoints (pkgName : string) (pkgData : PackageStats) :
  (0 <? List.length (dataPoints localeCompare pkgData))%nat
  = hasPoints (pkgName, pkgData).
Proof.
  unfold hasPoints, dataPoints. simpl.
  rewrite Array_sort_length, length_map, existsb_filter_nil.
  now destruct (filter organicOnly (overallData pkgData)).
Qed.

Lemma forEach_labels (l : list (string * PackageStats)) :
  forall index datasets allDates,
    map Dataset.label
      (fst (Js.forEach_from (trendsStep COLORS localeCompare) index l
              (datasets, allDates)))
    = (map Dataset.label datasets ++ map fst (filter hasPoints l))%list.
Proof.
  induction l as [|[pkgName pkgData] l IH]; intros index datasets allDates; simpl.
  - now rewrite app_nil_r.
  - rewrite (hasPoints_dataPoints pkgName).
    destruct (hasPoints (pkgName, pkgData)); rewrite IH.
    + rewrite map_app, <- app_assoc. reflexivity.
    + reflexivity.
Qed.

Lemma forEach_nonempty (l : list (string * PackageStats)) :
  forall index datasets allDates,
    Forall (fun ds => Dataset.data ds <> []) datasets ->
    Forall (fun ds => Dataset.data ds <> [])
      (fst (Js.forEach_from (trendsStep COLORS localeCompare) index l
              (datasets, allDates))).
Proof.
  induction l as [|[pkgName pkgData] l IH]; intros index datasets allDates Hne; simpl.
  - exact Hne.
  - destruct (0 <? List.length (dataPoints localeCompare pkgData))%nat eqn:E;
      apply IH; [|exact Hne].
    apply Forall_app. split; [exact Hne|].
    constructor; [|constructor]. simpl. now apply positive_length.
Qed.

Lemma forEach_indexed (l : list (string * PackageStats)) :
  forall index datasets allDates i pkgName pkgData,
    nth_error l i = Some (pkgName, pkgData) ->
    hasPoints (pkgName, pkgData) = true ->
    In {| Dataset.label := pkgName;
          Dataset.data := dataPoints localeCompare pkgData;
          Dataset.borderColor := color COLORS (index + i);
          Dataset.backgroundColor := translucent (color COLORS (index + i)) |}
       (fst (Js.forEach_from (trendsStep COLORS localeCompare) index l
               (datasets, allDates))).
Proof.
  induction l as [|[name0 pkg0] l IH];
    intros index datasets allDates i pkgName pkgData Hnth Hhas.
  - destruct i; discriminate.
  - destruct i as [|i]; simpl in Hnth |- *.
    + inversion Hnth; subst.
      rewrite (hasPoints_dataPoints pkgName), Hhas, Nat.add_0_r.
      apply forEach_datasets_keep, in_or_app. right. now left.
    + rewrite <- Nat.add_succ_comm.
      destruct (0 <? List.length (dataPoints localeCompare pkg0))%nat;
        now apply IH.
Qed.

Lemma forEach_colours (l : list (string * PackageStats)) :
  forall index datasets allDates ds,
    In ds (fst (Js.forEach_from (trendsStep COLORS localeCompare) index l
                  (datasets, allDates))) ->
    In ds datasets
    \/ exists i,
         Dataset.borderColor ds = color COLORS i
         /\ Dataset.backgroundColor ds = translucent (color COLORS i).
Proof.
  induction l as [|[pkgName pkgData] l IH]; intros index datasets allDates ds; simpl.
  - now left.
  - destruct (0 <? List.length (dataPoints localeCompare pkgData))%nat;
      intros H; apply IH in H; [|exact H].
    destruct H as [H|H]; [|now right].
    apply in_app_or in H. destruct H as [H|[H|[]]]; [now left|].
    subst ds. right. exists index. split; reflexivity.
Qed.

(** X1.  The trends chart has one dataset per package that has a daily
    point passing the filter; the datasets come in the order in which
    [Object.entries] lists the packages, each labelled with the package
    name, and none of them is empty. *)
Theorem trends_labels_in_entries_order (packages : Js.obj PackageStats) :
  map Dataset.label (fst (trends COLORS localeCompare packages))
  = map fst (filter hasPoints (Js.Object_entries packages))
  /\ Forall (fun ds => Dataset.data ds <> [])
       (fst (trends COLORS localeCompare packages)).
Proof.
  unfold trends, Js.forEach. split.
  - now rewrite forEach_labels.
  - apply forEach_nonempty. constructor.
Qed.

(** X2.  The colour of a dataset goes by the position of its package among
    all entries of the snapshot, not among the datasets: the package at
    position [i] is drawn with [COLORS[i % COLORS.length]], so a package
    without points still uses up a colour. *)
Theorem trends_colour_by_entry_index (packages : Js.obj PackageStats)
    (i : nat) (pkgName : string) (pkgData : PackageStats) :
  nth_error (Js.Object_entries packages) i = Some (pkgName, pkgData) ->
  hasPoints (pkgName, pkgData) = true ->
  In {| Dataset.label := pkgName;
        Dataset.data := dataPoints localeCompare pkgData;
        Dataset.borderColor := nth_error COLORS (i mod List.length COLORS);
        Dataset.backgroundColor :=
          translucent (nth_error COLORS (i mod List.length COLORS)) |}
     (fst (trends COLORS localeCompare packages)).
Proof.
  intros Hnth Hhas. unfold trends, Js.forEach.
  exact (forEach_indexed _ 0 [] [] i pkgName pkgData Hnth Hhas).
Qed.

(** X3.  With a palette that is not empty every dataset has a border
    colour of the palette, and its background is that colour with [20]
    appended: no colour is ever [undefined]. *)
Theorem trends_colours_defined (packages : Js.obj PackageStats) :
  COLORS <> [] ->
  Forall (fun ds =>
            exists c, In c COLORS
                      /\ Dataset.borderColor ds = Some c
                      /\ Dataset.backgroundColor ds = c ++ "20")
    (fst (trends COLORS localeCompare packages)).
Proof.
  intros Hne. rewrite Forall_forall. intros ds Hds.
  unfold trends, Js.forEach in Hds. apply forEach_colours in Hds.
  destruct Hds as [[]|[i [Hb Hbg]]].
  assert (Hlt : (i mod List.length COLORS < List.length COLORS)%nat).
  { apply Nat.mod_upper_bound. destruct COLORS; [congruence|discriminate]. }
  unfold color in Hb, Hbg.
  destruct (nth_error COLORS (i mod List.length COLORS)) as [c|] eqn:Hc.
  - exists c. split; [now apply nth_error_In in Hc|]. auto.
  - apply nth_error_None in Hc. lia.
Qed.

(** X4.  Whatever the collation does, sorting neither drops nor repeats a
    point: the data of every dataset is a rearrangement of the points of
    its package that pass the filter, each with its date and with its
    downloads or 0. *)
Theorem trends_points_preserved (packages : Js.obj PackageStats) :
  Forall (fun ds =>
            exists pkgData,
              In (Dataset.label ds, pkgData) packages
              /\ Permutation (Dataset.data ds)
                   (map toPoint (filter organicOnly (overallData pkgData))))
    (fst (trends COLORS localeCompare packages)).
Proof.
  rewrite Forall_forall. intros ds Hds.
  unfold trends, Js.forEach in Hds. apply forEach_datasets_sound in Hds.
  destruct Hds as [[]|[pkgData [Hin [Hdata _]]]].
  exists pkgData. split; [exact (proj1 (Object_entries_In _ _) Hin)|].
  rewrite Hdata. apply Array_sort_perm.
Qed.
End TrendsLayout.

Lemma trends_colour_by_entry_index_witness :
  In {| Dataset.label := "pkgB";
        Dataset.data := [ mkPoint "2025-01-01" 2 ];
        Dataset.borderColor := Some "#C50003";
        Dataset.backgroundColor := "#C5000320" |}
     (fst (trends COLORS_theme codeUnitCompare mirroredAndOrganic)).
Proof.
  apply (trends_colour_by_entry_index COLORS_theme codeUnitCompare
           mirroredAndOrganic 1 "pkgB"
           (onlyOverall [ DailyPoint.mk "2025-01-01" (Some 2) CategoryAbsent ]));
    reflexivity.
Defined.

Lemma trends_colours_defined_witness :
  Forall (fun ds =>
            exists c, In c COLORS_docs
                      /\ Dataset.borderColor ds = Some c
                      /\ Dataset.backgroundColor ds = c ++ "20")
    (fst (trends COLORS_docs codeUnitCompare mirroredAndOrganic)).
Proof.
  apply (trends_colours_defined COLORS_docs codeUnitCompare mirroredAndOrganic).
  discriminate.
Defined.

(** X5.  The two copies of the script, and any two palettes, draw the same
    series: the labels and the data of the datasets agree, and so does
    [allDates]; only the colours differ. *)
Theorem trends_any_palette (palette palette' : list string)
    (localeCompare : string -> string -> Z) (packages : Js.obj PackageStats) :
  map (fun ds => (Dataset.label ds, Dataset.data ds))
    (fst (trends palette localeCompare packages))
  = map (fun ds => (Dataset.label ds, Dataset.data ds))
      (fst (trends palette' localeCompare packages))
  /\ snd (trends palette localeCompare packages)
     = snd (trends palette' localeCompare packages).
Proof. apply forEach_palette. reflexivity. Qed.

(* ================================================================== *)
(** * Further properties of the categorical charts *)
(* ================================================================== *)

Section TotalsObject.

Lemma number_eqb_eq (a b : Js.number) : number_eqb a b = true <-> a = b.
Proof.
  destruct a as [x| |], b as [y| |]; simpl; split; intros H;
    try reflexivity; try discriminate.
  - apply Z.eqb_eq in H. now subst.
  - inversion H. apply Z.eqb_refl.
Qed.

(** The sort breaks no tie: entries with the same number for a total stay
    in their order. *)
Lemma ranked_ties (entries : list (string * Js.value)) (total : Js.number) :
  filter (sameTotal total) (Js.Array_sort byTotalDesc entries)
  = filter (sameTotal total) entries.
Proof.
  apply Array_sort_stable. intros a b _ _ Ha Hb.
  unfold sameTotal in Ha, Hb. unfold byTotalDesc.
  destruct (snd a) as [x|]; [|discriminate].
  destruct (snd b) as [y|]; [|discriminate].
  apply number_eqb_eq in Ha, Hb. subst x y.
  unfold Js.minus_sign, Js.ToNumber.
  destruct total as [z| |]; rewrite ?Z.sub_diag; simpl; lia.
Qed.

Lemma NoDup_firstn {A : Type} (n : nat) (l : list A) :
  NoDup l -> NoDup (firstn n l).
Proof.
  intros Hnd. rewrite <- (firstn_skipn n l) in Hnd.
  now apply NoDup_app_remove_r in Hnd.
Qed.

Lemma sumZ_perm (l l' : list Z) : Permutation l l' -> sumZ l = sumZ l'.
Proof.
  induction 1; simpl; lia.
Qed.

Lemma sumZ_nonneg (l : list Z) : Forall (fun z => 0 <= z) l -> 0 <= sumZ l.
Proof.
  induction 1; simpl; lia.
Qed.

Lemma get_map_values {V W : Type} (g : V -> W) (o : Js.obj V) (k : string) :
  Js.get (map_values g o) k = option_map g (Js.get o k).
Proof.
  induction o as [|[k0 v0] o IH]; simpl; [reflexivity|].
  now destruct (k =? k0)%string.
Qed.

Lemma set_map_values {V W : Type} (g : V -> W) (o : Js.obj V) (k : string) (v : V) :
  Js.set (map_values g o) k (g v) = map_values g (Js.set o k v).
Proof.
  induction o as [|[k0 v0] o IH]; simpl; [reflexivity|].
  destruct (k =? k0)%string; simpl; [reflexivity|]. now rewrite IH.
Qed.

Lemma sum_set (o : Js.obj Z) (k : string) (v : Z) :
  sumZ (map snd (Js.set o k v)) = sumZ (map snd o) - orZero (Js.get o k) + v.
Proof.
  induction o as [|[k0 v0] o IH]; simpl; [lia|].
  destruct (String.eqb_spec k k0) as [->|Hk]; simpl; [lia|].
  rewrite IH. lia.
Qed.

Lemma ownNames_app (items : list CategoryCount.t) (item : CategoryCount.t) :
  ownNames (items ++ [item]) = true ->
  ownNames items = true
  /\ (counted item = true -> Js.Object_prototype (categoryKey item) = None).
Proof.
  unfold ownNames. rewrite filter_app, forallb_app. simpl.
  intros H. apply andb_true_iff in H. destruct H as [Hitems Hitem].
  split; [exact Hitems|]. intros Hc. rewrite Hc in Hitem. simpl in Hitem.
  unfold ownName in Hitem. now destruct (Js.Object_prototype (categoryKey item)).
Qed.

Lemma magnitude_app (items : list CategoryCount.t) (item : CategoryCount.t) :
  magnitude (items ++ [item])
  = magnitude items + (if counted item then Z.abs (downloadsOf item) else 0).
Proof.
  unfold magnitude. rewrite filter_app, map_app, sumZ_app. simpl.
  destruct (counted item); simpl; lia.
Qed.

Lemma magnitude_nonneg (items : list CategoryCount.t) : 0 <= magnitude items.
Proof. apply sumZ_abs_nonneg. Qed.

Lemma addItem_own (totals : Js.obj Js.value) (item : CategoryCount.t) :
  counted item = true ->
  Js.Object_prototype (categoryKey item) = None ->
  addItem totals item
  = Js.set totals (categoryKey item)
      match Js.get totals (categoryKey item) with
      | Some current => Js.or0_plus current (downloadsOf item)
      | None => Js.Number (Js.add (Js.Finite 0) (downloadsOf item))
      end.
Proof.
  intros Hc Hname. unfold addItem. rewrite Hc, num_or_zero.
  change (orZero (CategoryCount.downloads item)) with (downloadsOf item).
  change (propertyKey (CategoryCount.category item)) with (categoryKey item).
  rewrite Hname. now destruct (Js.get totals (categoryKey item)).
Qed.

(** With own names and exact sums the totals object holds integers, and
    they add up to the downloads of the counted entries: grouping loses
    nothing. *)
Lemma totals_finite (items : list CategoryCount.t) :
  ownNames items = true -> exactRange items = true ->
  exists integers : Js.obj Z,
    fold_left addItem items [] = map_values finite integers
    /\ sumZ (map snd integers) = sumZ (map downloadsOf (filter counted items)).
Proof.
  induction items as [|item items IH] using rev_ind; intros Hown Hexact.
  - exists []. split; reflexivity.
  - destruct (ownNames_app _ _ Hown) as [Hown' Hname].
    unfold exactRange in Hexact. apply Z.ltb_lt in Hexact.
    rewrite magnitude_app in Hexact.
    assert (Hmag := magnitude_nonneg items).
    assert (Hexact' : exactRange items = true).
    { unfold exactRange. apply Z.ltb_lt. destruct (counted item); lia. }
    destruct (IH Hown' Hexact') as [integers [Htotals Hsum]].
    rewrite fold_left_app, filter_app, map_app, sumZ_app. simpl.
    destruct (counted item) eqn:Hc.
    + specialize (Hname eq_refl).
      assert (Hget := proj2 (totals_invariant items) (categoryKey item)).
      assert (Hgroup := group_magnitude items (categoryKey item)).
      rewrite (addItem_own _ _ Hc Hname), Hget.
      unfold totalOf in Hget |- *. rewrite Hname in Hget |- *.
      destruct (existsb (addsTo (categoryKey item)) items).
      * rewrite doubleSum_exact by lia.
        set (group := sumZ (map downloadsOf (filter (addsTo (categoryKey item)) items))).
        assert (Habs : Z.abs group
                       <= sumZ (map Z.abs
                                  (map downloadsOf
                                     (filter (addsTo (categoryKey item)) items))))
          by apply sumZ_abs.
        cbn [Js.or0_plus]. rewrite add_exact by lia.
        exists (Js.set integers (categoryKey item) (group + downloadsOf item)).
        rewrite Htotals. split; [apply (set_map_values finite)|].
        rewrite sum_set.
        assert (Hint : Js.get integers (categoryKey item) = Some group).
        { rewrite Htotals, get_map_values in Hget. rewrite doubleSum_exact in Hget by lia.
          destruct (Js.get integers (categoryKey item)) as [z|]; simpl in Hget;
            [|discriminate].
          unfold finite in Hget. fold group in Hget. congruence. }
        rewrite Hint. simpl. lia.
      * rewrite add_exact by (simpl; lia).
        exists (Js.set integers (categoryKey item) (downloadsOf item)).
        rewrite Htotals. split; [apply (set_map_values finite)|].
        rewrite sum_set.
        assert (Hint : Js.get integers (categoryKey item) = None).
        { rewrite Htotals, get_map_values in Hget.
          now destruct (Js.get integers (categoryKey item)). }
        rewrite Hint. simpl. lia.
    + rewrite addItem_uncounted by exact Hc.
      exists integers. split; [exact Htotals|]. simpl. lia.
Qed.

(** On integer totals the comparator is the sign of the difference. *)
Lemma byTotalDesc_finite (a b : string * Z) :
  byTotalDesc (fst a, finite (snd a)) (fst b, finite (snd b))
  = Z.sgn (snd b - snd a).
Proof. reflexivity. Qed.

End TotalsObject.

Section KeyOrder.

Lemma set_keys_Set_add {V : Type} (o : Js.obj V) (k : string) (v : V) :
  map fst (Js.set o k v) = Js.Set_add (map fst o) k.
Proof.
  unfold Js.Set_add. induction o as [|[k0 v0] o IH]; simpl; [reflexivity|].
  destruct (String.eqb_spec k k0) as [->|Hk]; simpl; [reflexivity|].
  rewrite IH. now destruct (existsb (String.eqb k) (map fst o)).
Qed.

(** A listed entry adds its category to the own keys, unless it is there. *)
Lemma addItem_listed (totals : Js.obj Js.value) (item : CategoryCount.t) :
  listed item = true ->
  exists total,
    addItem totals item = Js.set totals (categoryKey item) total.
Proof.
  unfold listed, notListed. rewrite uncounted_guard. intros Hlisted.
  apply negb_true_iff, orb_false_elim in Hlisted. destruct Hlisted as [Hc Hproto].
  apply negb_false_iff in Hc. apply String.eqb_neq in Hproto.
  unfold addItem. rewrite Hc. fold (categoryKey item).
  destruct (Js.get totals (categoryKey item)); [now eexists|].
  destruct (Js.Object_prototype (categoryKey item)) as [[|]|] eqn:Hname;
    try (now eexists).
  now apply (proj1 (Object_prototype_accessor _)) in Hname.
Qed.

Lemma addItem_unlisted (totals : Js.obj Js.value) (item : CategoryCount.t) :
  Js.get totals "__proto__" = None ->
  listed item = false ->
  addItem totals item = totals.
Proof.
  unfold listed, notListed. rewrite uncounted_guard. intros Hnone Hlisted.
  apply negb_false_iff, orb_true_iff in Hlisted.
  destruct (counted item) eqn:Hc; [|now apply addItem_uncounted].
  destruct Hlisted as [Hun|Hproto]; [discriminate|].
  apply String.eqb_eq in Hproto.
  unfold addItem. rewrite Hc. fold (categoryKey item). now rewrite Hproto, Hnone.
Qed.

(** The own keys of the totals object, in the order of their creation. *)
Lemma addItem_keys (items : list CategoryCount.t) :
  forall totals,
    Js.get totals "__proto__" = None ->
    map fst (fold_left addItem items totals)
    = fold_left Js.Set_add (map categoryKey (filter listed items)) (map fst totals).
Proof.
  induction items as [|item items IH]; intros totals Hnone; simpl; [reflexivity|].
  destruct (listed item) eqn:Hlisted; simpl.
  - destruct (addItem_listed totals item Hlisted) as [total Hset].
    rewrite Hset, IH, set_keys_Set_add; [reflexivity|].
    rewrite get_set.
    destruct (String.eqb_spec "__proto__" (categoryKey item)) as [Heq|_];
      [|exact Hnone].
    unfold listed, notListed in Hlisted. rewrite <- Heq in Hlisted.
    now rewrite orb_true_r in Hlisted.
  - rewrite (addItem_unlisted totals item Hnone Hlisted). now apply IH.
Qed.

(** The order of [Object.entries] is that of the keys alone. *)
Lemma Object_entries_keys {V : Type} (o : Js.obj V) :
  map fst (Js.Object_entries o) = map fst (Js.Object_entries (objectOf (map fst o))).
Proof.
  assert (Hkeys : forall W (g : V -> W) (l : Js.obj V),
            map fst (map_values g l) = map fst l).
  { intros W g l. unfold map_values. rewrite map_map. now apply map_ext. }
  assert (Hobject : objectOf (map fst o) = map_values (fun _ => tt) o).
  { unfold objectOf, map_values. now rewrite map_map. }
  now rewrite Hobject, Object_entries_map_values, Hkeys.
Qed.

End KeyOrder.

(** X6.  The categories come out of the totals object as they would come
    out of an object to which every category is added when its first
    listed entry is met, over the packages as [Object.values] lists them:
    [Object.entries] gives the categories that are array indices first, in
    ascending order, and then the others in the order of their first
    occurrence. *)
Theorem totals_keys_first_seen (packages : Js.obj PackageStats) :
  map fst (Js.Object_entries (systemTotals packages))
  = map fst
      (Js.Object_entries
         (objectOf
            (firstSeen (map categoryKey (filter listed (facetItems system packages))))))
  /\ map fst (Js.Object_entries (versionTotals packages))
     = map fst
         (Js.Object_entries
            (objectOf
               (firstSeen
                  (map categoryKey
                     (filter listed (facetItems python_versions packages)))))).
Proof.
  split.
  - rewrite Object_entries_keys, systemTotals_fold, addItem_keys; reflexivity.
  - rewrite Object_entries_keys, versionTotals_fold, addItem_keys; reflexivity.
Qed.

(** Categories [b], [10] and [2], met in this order with the same count,
    label the doughnut in the order [2], [10], [b]. *)
Example indexCategories_order :
  map fst (sortedSystems indexCategories) = [ "2"; "10"; "b" ].
Proof. vm_compute. reflexivity. Qed.

(** X7.  Where no counted category names a property of [Object.prototype],
    categories with the same total keep, in both rankings, the order in
    which [Object.entries] lists them in the totals object: the sort breaks
    no tie on its own.  The interpreter-version list is the first ten
    entries of the one arrangement of the totals that is in non-increasing
    order and keeps the ties so. *)
Theorem ranking_ties_keep_entries_order (packages : Js.obj PackageStats) :
  ownNames (facetItems system packages) = true ->
  ownNames (facetItems python_versions packages) = true ->
  (forall total,
     filter (sameTotal total) (sortedSystems packages)
     = filter (sameTotal total) (Js.Object_entries (systemTotals packages)))
  /\ exists ranked,
       sortedVersions packages = firstn 10 ranked
       /\ Permutation ranked (versionTotals packages)
       /\ StronglySorted nonIncreasing ranked
       /\ forall total,
            filter (sameTotal total) ranked
            = filter (sameTotal total) (Js.Object_entries (versionTotals packages)).
Proof.
  intros _ Hversions. split.
  - intros total. apply ranked_ties.
  - exists (Js.Array_sort byTotalDesc (Js.Object_entries (versionTotals packages))).
    split; [reflexivity|]. split; [apply ranked_perm|]. split.
    + rewrite versionTotals_fold. now apply totals_ranked_sorted.
    + intros total. apply ranked_ties.
Qed.

Lemma ranking_ties_keep_entries_order_witness :
  (forall total,
     filter (sameTotal total) (sortedSystems tiedVersions)
     = filter (sameTotal total) (Js.Object_entries (systemTotals tiedVersions)))
  /\ exists ranked,
       sortedVersions tiedVersions = firstn 10 ranked
       /\ Permutation ranked (versionTotals tiedVersions)
       /\ StronglySorted nonIncreasing ranked
       /\ forall total,
            filter (sameTotal total) ranked
            = filter (sameTotal total) (Js.Object_entries (versionTotals tiedVersions)).
Proof.
  apply (ranking_ties_keep_entries_order tiedVersions); reflexivity.
Defined.

(** The two tied versions stay in the order in which they were first
    seen. *)
Example tiedVersions_order :
  map fst (sortedVersions tiedVersions) = [ "3.11"; "3.12" ].
Proof. vm_compute. reflexivity. Qed.

(** X9.  Where no counted category names a property of [Object.prototype],
    the counted downloads stay below [2^53] and no interpreter-version
    entry has a negative count, every bar is a non-negative integer, and
    the bars together do not exceed the downloads of all counted entries:
    cutting the ranking at ten can only leave downloads out. *)
Theorem version_bars_bounded (packages : Js.obj PackageStats) :
  ownNames (facetItems python_versions packages) = true ->
  exactRange (facetItems python_versions packages) = true ->
  nonNegative (facetItems python_versions packages) = true ->
  exists bars : list Z,
    map snd (sortedVersions packages) = map finite bars
    /\ Forall (fun z => 0 <= z) bars
    /\ sumZ bars
       <= sumZ (map downloadsOf
                  (filter counted (facetItems python_versions packages))).
Proof.
  intros Hown Hexact Hnn. unfold nonNegative in Hnn. rewrite forallb_forall in Hnn.
  set (items := facetItems python_versions packages) in *.
  destruct (totals_finite items Hown Hexact) as [integers [Htotals Hsum]].
  set (cmp := fun a b : string * Z => Z.sgn (snd b - snd a)).
  set (ranked := Js.Array_sort cmp (Js.Object_entries integers)).
  assert (Hranked : Js.Array_sort byTotalDesc (Js.Object_entries (versionTotals packages))
                    = map_values finite ranked).
  { rewrite versionTotals_fold. fold items. rewrite Htotals.
    rewrite Object_entries_map_values. unfold map_values.
    apply Array_sort_map. intros a b. apply byTotalDesc_finite. }
  assert (Hperm : Permutation ranked integers).
  { eapply perm_trans; [apply Array_sort_perm|apply Object_entries_perm]. }
  assert (Hall : Forall (fun z => 0 <= z) (map snd ranked)).
  { rewrite Forall_forall. intros z Hz.
    apply in_map_iff in Hz. destruct Hz as [[key z'] [Heq Hin]]. simpl in Heq. subst z'.
    apply (Permutation_in _ Hperm) in Hin.
    assert (Htotal : In (key, finite z) (fold_left addItem items [])).
    { rewrite Htotals. unfold map_values. apply in_map_iff.
      now exists (key, z). }
    apply (proj1 (totals_entries_exact items key _ Hown Hexact)) in Htotal.
    destruct Htotal as [_ Heq]. unfold finite in Heq. inversion Heq as [Hz].
    apply sumZ_nonneg. rewrite Forall_forall. intros d Hd.
    apply in_map_iff in Hd. destruct Hd as [item [<- Hitem]].
    apply filter_In in Hitem. destruct Hitem as [Hitem _].
    apply Z.leb_le. now apply Hnn. }
  exists (map snd (firstn 10 ranked)).
  unfold sortedVersions, Js.Array_slice0. rewrite Hranked.
  unfold map_values. rewrite firstn_map, !map_map.
  split; [reflexivity|].
  rewrite <- (firstn_skipn 10 ranked), map_app in Hall.
  apply Forall_app in Hall. destruct Hall as [Hfirst Hrest].
  split; [exact Hfirst|].
  rewrite <- Hsum, <- (sumZ_perm _ _ (Permutation_map snd Hperm)).
  rewrite <- (firstn_skipn 10 ranked) at 2. rewrite map_app, sumZ_app.
  assert (0 <= sumZ (map snd (skipn 10 ranked))) by now apply sumZ_nonneg.
  lia.
Qed.

Lemma version_bars_bounded_witness :
  exists bars : list Z,
    map snd (sortedVersions twoPackages) = map finite bars
    /\ Forall (fun z => 0 <= z) bars
    /\ sumZ bars
       <= sumZ (map downloadsOf
                  (filter counted (facetItems python_versions twoPackages))).
Proof.
  apply (version_bars_bounded twoPackages); vm_compute; reflexivity.
Defined.

(** X10.  Every bar of the interpreter-version chart stands for another
    category, and each label is the category of an entry of the snapshot. *)
Theorem version_labels_distinct (packages : Js.obj PackageStats) :
  NoDup (map fst (sortedVersions packages))
  /\ Forall (fun key =>
               exists item,
                 In item (facetItems python_versions packages)
                 /\ CategoryCount.category item = CategoryStr key)
       (map fst (sortedVersions packages)).
Proof.
  split.
  - unfold sortedVersions, Js.Array_slice0. rewrite <- firstn_map.
    apply NoDup_firstn. eapply Permutation_NoDup.
    + apply Permutation_map, Permutation_sym, ranked_perm.
    + rewrite versionTotals_fold. apply totals_keys_NoDup.
  - rewrite Forall_forall. intros key Hkey.
    apply in_map_iff in Hkey. destruct Hkey as [[key' total] [<- Hin]].
    unfold sortedVersions, Js.Array_slice0 in Hin. apply In_firstn in Hin.
    apply (proj1 (ranked_In _ _)) in Hin. rewrite versionTotals_fold in Hin.
    destruct (totals_key_item _ _ _ Hin) as [item [Hitem [Hcat _]]].
    now exists item.
Qed.


Lemma filter_perm {A : Type} (f : A -> bool) (l l' : list A) :
  Permutation l l' -> Permutation (filter f l) (filter f l').
Proof.
  induction 1 as [|a l l' _ IH|a b l|l l' l'' _ IH1 _ IH2]; simpl.
  - apply perm_nil.
  - destruct (f a); [now apply perm_skip|exact IH].
  - destruct (f a), (f b); try apply Permutation_refl. apply perm_swap.
  - eapply perm_trans; eassumption.
Qed.

Section OrderIndependence.
Variables items items' : list CategoryCount.t.
Hypothesis items_perm : Permutation items items'.

Lemma ownNames_perm : ownNames items = true -> ownNames items' = true.
Proof.
  unfold ownNames. rewrite !forallb_forall. intros Hown item Hitem.
  apply Hown. eapply Permutation_in; [|exact Hitem].
  apply Permutation_sym, filter_perm, items_perm.
Qed.

Lemma magnitude_perm : magnitude items = magnitude items'.
Proof.
  unfold magnitude. apply sumZ_perm, Permutation_map, filter_perm, items_perm.
Qed.

Lemma group_perm (key : string) :
  sumZ (map downloadsOf (filter (addsTo key) items))
  = sumZ (map downloadsOf (filter (addsTo key) items')).
Proof. apply sumZ_perm, Permutation_map, filter_perm, items_perm. Qed.

Lemma existsb_perm (key : string) :
  existsb (addsTo key) items = true -> existsb (addsTo key) items' = true.
Proof.
  rewrite !existsb_exists. intros [item [Hitem Hadds]].
  exists item. split; [|exact Hadds]. eapply Permutation_in; eassumption.
Qed.

End OrderIndependence.

Lemma totals_perm (items items' : list CategoryCount.t) :
  ownNames items = true -> exactRange items = true ->
  Permutation items items' ->
  Permutation (fold_left addItem items []) (fold_left addItem items' []).
Proof.
  intros Hown Hexact Hperm.
  assert (Hown' := ownNames_perm _ _ Hperm Hown).
  assert (Hexact' : exactRange items' = true).
  { unfold exactRange in *. now rewrite <- (magnitude_perm _ _ Hperm). }
  apply NoDup_Permutation.
  - eapply NoDup_map_inv, totals_keys_NoDup.
  - eapply NoDup_map_inv, totals_keys_NoDup.
  - intros [key total].
    rewrite (totals_entries_exact items key total Hown Hexact).
    rewrite (totals_entries_exact items' key total Hown' Hexact').
    rewrite (group_perm _ _ Hperm key).
    split; intros [E Htotal]; (split; [|exact Htotal]).
    + exact (existsb_perm _ _ Hperm key E).
    + exact (existsb_perm _ _ (Permutation_sym Hperm) key E).
Qed.

(** X11.  Where no counted category names a property of
    [Object.prototype] and the counted downloads stay below [2^53], the
    slices of the doughnut do not depend on the order in which the packages
    and their entries come: two snapshots whose [system] entries are the
    same up to order give the same (category, total) pairs, up to the order
    of the ranking. *)
Theorem systems_order_independent (packages packages' : Js.obj PackageStats) :
  ownNames (facetItems system packages) = true ->
  exactRange (facetItems system packages) = true ->
  Permutation (facetItems system packages) (facetItems system packages') ->
  Permutation (sortedSystems packages) (sortedSystems packages').
Proof.
  intros Hown Hexact Hperm. unfold sortedSystems.
  eapply perm_trans; [apply ranked_perm|].
  eapply perm_trans; [|apply Permutation_sym, ranked_perm].
  rewrite !systemTotals_fold. now apply totals_perm.
Qed.

Lemma systems_order_independent_witness :
  Permutation (sortedSystems threeSystems) (sortedSystems threeSystemsSwapped).
Proof.
  apply (systems_order_independent threeSystems threeSystemsSwapped).
  - vm_compute. reflexivity.
  - vm_compute. reflexivity.
  - exact (Permutation_app_comm
             [count "Linux" 7; count "Darwin" 3]
             [count "Windows" 3; count "Linux" 1]).
Defined.

(** Beyond [2^53] the order of the entries shows in the total. *)
Example large_counts_order_dependent :
  sortedSystems
    [ ("pkgA", onlySystem [ count "Linux" 9007199254740992; count "Linux" 1;
                            count "Linux" 1 ]) ]
  = [ ("Linux", finite 9007199254740992) ]
  /\ sortedSystems
       [ ("pkgA", onlySystem [ count "Linux" 1; count "Linux" 1;
                               count "Linux" 9007199254740992 ]) ]
     = [ ("Linux", finite 9007199254740994) ].
Proof. split; vm_compute; reflexivity. Qed.

Section OwnFacet.
Variable g : PackageStats -> PackageStats.

Lemma fold_left_map_ext {S A : Type} (f f' : S -> A -> S) (h : A -> A) (l : list A) :
  (forall s a, f s (h a) = f' s a) ->
  forall s, fold_left f (map h l) s = fold_left f' l s.
Proof.
  intros Hext. induction l as [|a l IH]; intros s; simpl; [reflexivity|].
  now rewrite Hext, IH.
Qed.

(** X12.  Each view reads its own facet and nothing else: changing the
    packages in any way that leaves [python_versions] alone leaves the
    interpreter-version list alone, and likewise [system] for the
    operating-system list, [overall] for the trends chart and [recent] for
    the summary cards. *)
Theorem views_read_their_own_facet (packages : Js.obj PackageStats) :
  ((forall pkgData, python_versions (g pkgData) = python_versions pkgData) ->
   sortedVersions (map_values g packages) = sortedVersions packages)
  /\ ((forall pkgData, system (g pkgData) = system pkgData) ->
      sortedSystems (map_values g packages) = sortedSystems packages)
  /\ ((forall pkgData, overall (g pkgData) = overall pkgData) ->
      forall COLORS localeCompare,
        trends COLORS localeCompare (map_values g packages)
        = trends COLORS localeCompare packages)
  /\ ((forall pkgData, recent (g pkgData) = recent pkgData) ->
      forall toLocaleString page,
        renderSummaryCards toLocaleString (map_values g packages) page
        = renderSummaryCards toLocaleString packages page).
Proof.
  split; [|split; [|split]].
  - intros Hsame. unfold sortedVersions, versionTotals.
    rewrite Object_values_map_values.
    rewrite (fold_left_map_ext _
               (fun totals pkgData =>
                  fold_left addItem (data_or (python_versions pkgData) []) totals));
      [reflexivity|].
    intros totals pkgData. now rewrite Hsame.
  - intros Hsame. unfold sortedSystems, systemTotals.
    rewrite Object_values_map_values.
    rewrite (fold_left_map_ext _
               (fun totals pkgData =>
                  fold_left addItem (data_or (system pkgData) []) totals));
      [reflexivity|].
    intros totals pkgData. now rewrite Hsame.
  - intros Hsame COLORS localeCompare. unfold trends, Js.forEach.
    rewrite Object_entries_map_values. unfold map_values.
    apply forEach_from_map.
    intros [datasets allDates] [pkgName pkgData] index. simpl.
    unfold dataPoints, overallData. now rewrite Hsame.
  - intros Hsame toLocaleString page. unfold renderSummaryCards.
    rewrite Object_entries_map_values. unfold map_values. rewrite map_map.
    do 2 f_equal. apply map_ext. intros [pkgName pkgData]. simpl.
    unfold recentWindow. now rewrite Hsame.
Qed.
End OwnFacet.

(* ================================================================== *)
(** * Further properties of the cards and of the loader *)
(* ================================================================== *)

Lemma filter_all {A : Type} (f : A -> bool) (l : list A) :
  forallb f l = true -> filter f l = l.
Proof.
  induction l as [|a l IH]; simpl; [reflexivity|].
  destruct (f a); simpl; [|discriminate]. intros H. now rewrite IH.
Qed.

Lemma filter_none {A : Type} (f : A -> bool) (l : list A) :
  forallb (fun a => negb (f a)) l = true -> filter f l = [].
Proof.
  induction l as [|a l IH]; simpl; [reflexivity|].
  destruct (f a); simpl; [discriminate|exact IH].
Qed.

Lemma Object_entries_no_index {V : Type} (o : Js.obj V) :
  noIndexKeys o = true -> Js.Object_entries o = o.
Proof.
  intros H. unfold Js.Object_entries, noIndexKeys in *.
  now rewrite (filter_none _ _ H), (filter_all _ _ H).
Qed.

Lemma formatNumber_num_or (toLocaleString : Z -> string) (value : option Z) :
  formatNumber toLocaleString (Some (Js.num_or value 0))
  = formatNumber toLocaleString value.
Proof.
  destruct value as [n|]; simpl; [|reflexivity].
  destruct (Z.eqb_spec n 0) as [->|Hn]; simpl; [reflexivity|].
  now destruct (Z.eqb_spec n 0).
Qed.

(** X13.  When no package name is an array index (a canonical decimal
    numeral), the summary cards come one per package in the order of the
    document, in both copies of the script. *)
Theorem cards_in_document_order
    (toLocaleString : Z -> string) (packages : Js.obj PackageStats)
    (page : Page) (docsPage : Docs.Page) :
  noIndexKeys packages = true ->
  summaryCards (renderSummaryCards toLocaleString packages page)
  = Cards (map (packageCard toLocaleString) packages)
  /\ Docs.summaryCards (Docs.renderSummaryCards toLocaleString packages docsPage)
     = Docs.Cards (map (Docs.packageCard toLocaleString) packages)
  /\ Docs.packageDetails (Docs.renderPackageDetails toLocaleString packages docsPage)
     = Docs.Details (map (Docs.packageDetail toLocaleString) packages).
Proof.
  intros Hkeys. simpl. now rewrite (Object_entries_no_index _ Hkeys).
Qed.

Lemma cards_in_document_order_witness :
  summaryCards
    (renderSummaryCards statusText mirroredAndOrganic
       (mkPage None "" StaticMarkup [] []))
  = Cards (map (packageCard statusText) mirroredAndOrganic).
Proof.
  apply (cards_in_document_order statusText mirroredAndOrganic
           (mkPage None "" StaticMarkup [] [])
           (Docs.mkPage None "" "" Docs.StaticMarkup Docs.StaticDetails [] [])).
  reflexivity.
Defined.

(** A name that is an array index moves its card to the front. *)
Example cards_index_name_first (toLocaleString : Z -> string) :
  map cardName
    (map (packageCard toLocaleString)
       (Js.Object_entries [ ("pkgA", pkgA_recent); ("2", pkgA_recent) ]))
  = [ "2"; "pkgA" ].
Proof. reflexivity. Qed.

(** X14.  A summary card prints each field of [recent.data] through
    [formatNumber]: a field that is missing or zero reads [0], any other
    value reads as the locale prints it; the defaulting to zero in between
    changes nothing. *)
Theorem card_prints_raw_fields
    (toLocaleString : Z -> string) (pkgName : string) (pkgData : PackageStats) :
  packageCard toLocaleString (pkgName, pkgData)
  = mkCard pkgName
      (formatNumber toLocaleString (last_day (recentFields pkgData)))
      (formatNumber toLocaleString (last_day_without_mirrors (recentFields pkgData)))
      (formatNumber toLocaleString (last_week (recentFields pkgData)))
      (formatNumber toLocaleString (last_week_without_mirrors (recentFields pkgData)))
      (formatNumber toLocaleString (last_month (recentFields pkgData)))
      (formatNumber toLocaleString (last_month_without_mirrors (recentFields pkgData))).
Proof.
  unfold packageCard, recentWindow, recentFields.
  cbn [lastDay lastWeek lastMonth lastDayWithout lastWeekWithout lastMonthWithout].
  now rewrite !formatNumber_num_or.
Qed.

(** X15.  In the copy with the package-details section, the details of a
    package and its summary card always show the same name and the same
    three numbers, although only the card defaults missing fields to zero
    before formatting. *)
Theorem docs_details_match_cards
    (toLocaleString : Z -> string) (entry : string * PackageStats) :
  let card := Docs.packageCard toLocaleString entry in
  let detail := Docs.packageDetail toLocaleString entry in
  Docs.detailName detail = Docs.cardName card
  /\ Docs.detailDay detail = Docs.cardDay card
  /\ Docs.detailWeek detail = Docs.cardWeek card
  /\ Docs.detailMonth detail = Docs.cardMonth card.
Proof.
  destruct entry as [pkgName pkgData].
  unfold Docs.packageCard, Docs.packageDetail.
  cbn [Docs.cardName Docs.cardDay Docs.cardWeek Docs.cardMonth
       Docs.detailName Docs.detailDay Docs.detailWeek Docs.detailMonth].
  now rewrite !formatNumber_num_or.
Qed.

(** X16.  The loader of the copy with the package-details section.  A
    rejected fetch, a response that is not a success and a body that is no
    JSON text all end in the handler with nothing rendered: the page
    differs only by the error paragraph in place of the cards and by one
    console line that carries the error object.  A body that is a snapshot
    gives the data, both dates, the cards, the details and the three
    charts.  A body in which the interpreter versions of some package are
    no array ends in the handler after the trends chart and the details
    have been made: they stay, next to the error paragraph. *)
Theorem docs_loadStats_all_or_nothing
    (toLocaleString : Z -> string)
    (Date_toLocaleString Date_toLocaleDateString : string -> string)
    (localeCompare : string -> string -> Z)
    (TypeError_message : Thrown -> string) (page : Docs.Page) :
  (forall outcome error,
     networkFailure outcome = Some error ->
     Docs.loadStats toLocaleString Date_toLocaleString Date_toLocaleDateString
       localeCompare TypeError_message outcome page
     = Docs.mkPage (Docs.statsData page) (Docs.lastUpdated page)
         (Docs.footerUpdated page)
         (Docs.ErrorParagraph
            ("Error loading statistics: " ++ errorMessage TypeError_message error
             ++ ". Please check the browser console for details."))
         (Docs.packageDetails page) (Docs.charts page)
         (Docs.console page ++ [ ("Error loading stats:", error) ])%list)
  /\ (forall status stats,
        Docs.loadStats toLocaleString Date_toLocaleString Date_toLocaleDateString
          localeCompare TypeError_message
          (FetchResponse true status (inr (bodyOf stats))) page
        = Docs.mkPage (Some (bodyOf stats))
            ("Last updated: " ++ Date_toLocaleString (last_updated stats))
            ("Updated on " ++ Date_toLocaleDateString (last_updated stats))
            (Docs.Cards
               (map (Docs.packageCard toLocaleString)
                  (Js.Object_entries (packages stats))))
            (Docs.Details
               (map (Docs.packageDetail toLocaleString)
                  (Js.Object_entries (packages stats))))
            (Docs.charts page
             ++ [ ("trendsChart",
                   Line (fst (trends COLORS_docs localeCompare (packages stats))));
                  ("pythonVersionsChart",
                   Bar (map fst (sortedVersions (packages stats)))
                       (map snd (sortedVersions (packages stats))));
                  ("systemsChart",
                   Doughnut (map fst (sortedSystems (packages stats)))
                            (map snd (sortedSystems (packages stats)))) ])%list
            (Docs.console page))
  /\ (forall status timestamp parsed,
        existsb overallNotArray (Js.Object_values parsed) = false ->
        existsb pythonNotArray (Js.Object_values parsed) = true ->
        Docs.loadStats toLocaleString Date_toLocaleString Date_toLocaleDateString
          localeCompare TypeError_message
          (FetchResponse true status (inr (mkBody timestamp (Some parsed)))) page
        = Docs.mkPage (Some (mkBody timestamp (Some parsed)))
            ("Last updated: " ++ Date_toLocaleString timestamp)
            ("Updated on " ++ Date_toLocaleDateString timestamp)
            (Docs.ErrorParagraph
               ("Error loading statistics: "
                ++ TypeError_message (NotAFunction "pythonData.forEach")
                ++ ". Please check the browser console for details."))
            (Docs.Details
               (map (Docs.packageDetail toLocaleString)
                  (Js.Object_entries (shapedPackages parsed))))
            (Docs.charts page
             ++ [ ("trendsChart",
                   Line (fst (trends COLORS_docs localeCompare
                                (shapedPackages parsed)))) ])%list
            (Docs.console page
             ++ [ ("Error loading stats:",
                   TypeError (NotAFunction "pythonData.forEach")) ])%list).
Proof.
  split; [|split].
  - intros [message|[|] status [message|body]] error Hfail;
      inversion Hfail; subst; reflexivity.
  - intros status stats. unfold Docs.loadStats. cbn [negb]. cbv zeta.
    erewrite andThen_returns by (apply renderCall_bodyOf; reflexivity).
    erewrite andThen_returns
      by (apply renderCall_bodyOf; exact overallNotArray_parsed).
    erewrite andThen_returns by (apply renderCall_bodyOf; reflexivity).
    erewrite andThen_returns
      by (apply renderCall_bodyOf; exact pythonNotArray_parsed).
    erewrite andThen_returns
      by (apply renderCall_bodyOf; exact systemNotArray_parsed).
    unfold Docs.renderSystemsChart, Docs.renderPythonVersionsChart,
      Docs.renderTrendsChart, Docs.addChart. cbn.
    now rewrite <- !app_assoc.
  - intros status timestamp parsed Hoverall Hpython.
    unfold Docs.loadStats, renderCall, andThen.
    cbn [negb body_packages body_last_updated].
    assert (Hnone : existsb noArrayMethod (Js.Object_values parsed) = false).
    { apply existsb_none. reflexivity. }
    rewrite Hnone, Hoverall, Hpython. reflexivity.
Qed.

Section ErrorMessage.

Lemma append_length (a b : string) :
  String.length (a ++ b) = (String.length a + String.length b)%nat.
Proof.
  induction a as [|c a IH]; simpl; [reflexivity|]. now rewrite IH.
Qed.

Lemma append_inj_r (a : string) :
  forall b suffix, a ++ suffix = b ++ suffix -> a = b.
Proof.
  induction a as [|c a IH]; intros [|d b] suffix H; simpl in H.
  - reflexivity.
  - apply (f_equal String.length) in H. simpl in H.
    rewrite append_length in H. lia.
  - apply (f_equal String.length) in H. simpl in H.
    rewrite append_length in H. lia.
  - injection H as Hc H. subst d. f_equal. now apply (IH b suffix).
Qed.

Lemma statusText_inj (a b : Z) : statusText a = statusText b -> a = b.
Proof.
  unfold statusText. intros H.
  assert (Hparse : forall z,
            NilZero.int_of_string (NilZero.string_of_int (Z.to_int z))
            = Some (Z.to_int z)).
  { intros z. apply NilZero.isi; destruct z; simpl; try discriminate;
      intros Heq; injection Heq as Heq; now apply DecimalPos.Unsigned.to_uint_nonnil in Heq. }
  apply DecimalZ.to_int_inj.
  assert (Hsome : Some (Z.to_int a) = Some (Z.to_int b)).
  { rewrite <- !Hparse. now rewrite H. }
  now injection Hsome.
Qed.

End ErrorMessage.

(** X17.  The error paragraph names the status code: two responses that
    are not a success and differ in their status never give the same
    message. *)
Theorem error_message_identifies_status
    (COLORS : list string) (toLocaleString : Z -> string)
    (Date_toLocaleString : string -> string)
    (localeCompare : string -> string -> Z)
    (TypeError_message : Thrown -> string)
    (status status' : Z) (json json' : string + Body) (page : Page) :
  status <> status' ->
  summaryCards
    (loadStats COLORS toLocaleString Date_toLocaleString localeCompare
       TypeError_message (FetchResponse false status json) page)
  <> summaryCards
       (loadStats COLORS toLocaleString Date_toLocaleString localeCompare
          TypeError_message (FetchResponse false status' json') page).
Proof.
  intros Hdiff Heq. apply Hdiff.
  simpl in Heq.
  injection Heq as Heq. apply statusText_inj.
  exact (append_inj_r _ _ _ Heq).
Qed.

Lemma error_message_identifies_status_witness :
  summaryCards
    (loadStats COLORS_theme statusText (fun timestamp => timestamp) codeUnitCompare
       (fun thrown => "") (FetchResponse false 404 (inl "")) blankPage)
  <> summaryCards
       (loadStats COLORS_theme statusText (fun timestamp => timestamp) codeUnitCompare
          (fun thrown => "") (FetchResponse false 500 (inl "")) blankPage).
Proof.
  apply (error_message_identifies_status COLORS_theme statusText
           (fun timestamp => timestamp) codeUnitCompare (fun thrown => "") 404 500).
  discriminate.
Defined.

(* ================================================================== *)
(** * Empty charts *)
(* ================================================================== *)

Lemma map_nil {A B : Type} (f : A -> B) (l : list A) : map f l = [] <-> l = [].
Proof.
  destruct l; simpl; split; intros H; try reflexivity; discriminate.
Qed.

Lemma perm_nil_iff {A : Type} (l l' : list A) :
  Permutation l l' -> (l = [] <-> l' = []).
Proof.
  intros Hperm. split; intros ->.
  - now apply Permutation_nil.
  - now apply Permutation_nil, Permutation_sym.
Qed.

(** The totals object is empty exactly when no entry gets a property. *)
Lemma totals_nil (items : list CategoryCount.t) :
  fold_left addItem items [] = [] <-> filter listed items = [].
Proof.
  split; intros H.
  - destruct (filter listed items) as [|item rest] eqn:E; [reflexivity|].
    assert (Hin : In item (filter listed items)) by (rewrite E; now left).
    apply filter_In in Hin. destruct Hin as [Hitem Hlisted].
    unfold listed in Hlisted. apply negb_true_iff in Hlisted.
    assert (Hc : counted item = true).
    { unfold notListed in Hlisted. rewrite uncounted_guard in Hlisted.
      now destruct (counted item). }
    destruct (totals_listed items item (categoryKey item) Hitem Hlisted
                (counted_category item Hc)) as [total Hin].
    rewrite H in Hin. destruct Hin.
  - destruct (fold_left addItem items []) as [|[key total] rest] eqn:E; [reflexivity|].
    destruct (totals_only_listed items key total) as [item [Hitem [Hlisted _]]].
    { rewrite E. now left. }
    assert (Hin : In item (filter listed items)).
    { apply filter_In. split; [exact Hitem|]. unfold listed. now rewrite Hlisted. }
    rewrite H in Hin. destruct Hin.
Qed.

(** X18.  A chart is empty exactly when the snapshot gives it nothing to
    show: the doughnut and the bar chart have no entry if and only if no
    package has, in the facet, an entry that gets a property in the totals
    object (a counted entry of a category other than [__proto__]), and the
    trends chart has no dataset if and only if no package has a point that
    passes the filter. *)
Theorem charts_empty_iff
    (COLORS : list string) (localeCompare : string -> string -> Z)
    (packages : Js.obj PackageStats) :
  (sortedSystems packages = []
   <-> filter listed (facetItems system packages) = [])
  /\ (sortedVersions packages = []
      <-> filter listed (facetItems python_versions packages) = [])
  /\ (fst (trends COLORS localeCompare packages) = []
      <-> existsb hasPoints packages = false).
Proof.
  split; [|split].
  - unfold sortedSystems.
    rewrite (perm_nil_iff _ _ (ranked_perm (systemTotals packages))).
    rewrite systemTotals_fold. apply totals_nil.
  - unfold sortedVersions, Js.Array_slice0.
    rewrite <- (totals_nil (facetItems python_versions packages)),
      <- versionTotals_fold.
    rewrite <- (perm_nil_iff _ _ (ranked_perm (versionTotals packages))).
    destruct (Js.Array_sort byTotalDesc (Js.Object_entries (versionTotals packages)));
      simpl; split; intros H; try reflexivity; discriminate.
  - rewrite <- (map_nil Dataset.label).
    unfold trends, Js.forEach. rewrite forEach_labels. simpl.
    rewrite map_nil. split.
    + intros Hnil. destruct (existsb hasPoints packages) eqn:E; [|reflexivity].
      apply existsb_exists in E. destruct E as [entry [Hin Hhas]].
      assert (Hf : In entry (filter hasPoints (Js.Object_entries packages))).
      { apply filter_In. split; [|exact Hhas].
        exact (proj2 (Object_entries_In _ _) Hin). }
      rewrite Hnil in Hf. destruct Hf.
    + intros Hnone.
      destruct (filter hasPoints (Js.Object_entries packages)) as [|entry rest] eqn:E;
        [reflexivity|].
      assert (Hf : In entry (filter hasPoints (Js.Object_entries packages))).
      { rewrite E. now left. }
      apply filter_In in Hf. destruct Hf as [Hin Hhas].
      apply (proj1 (Object_entries_In _ _)) in Hin.
      assert (existsb hasPoints packages = true); [|congruence].
      apply existsb_exists. now exists entry.
Qed.

(** A snapshot whose only operating-system entry is of category
    [__proto__] has a counted entry and an empty doughnut. *)
Example protoCategory_empty :
  filter counted (facetItems system protoCategory) = [ count "__proto__" 4 ]
  /\ sortedSystems protoCategory = [].
Proof. split; vm_compute; reflexivity. Qed.
